(** * Ticket Classification API

    A shallow embedding of the service in [main.py], [security.py] and
    [config.py]: the request and response models, the API-key dependency,
    the rate-limited endpoint, the classification call and the exception
    handlers, with the properties of the request pipeline proved about
    them.

    Python strings are Rocq strings, one cell per character; [len] is
    [String.length] and [==] is equality of the sequences.  The process
    state the endpoint touches (the log, the requests sent to the
    completion API, the counters of the rate limiter) is threaded
    explicitly through a state-and-exception monad.  What the libraries
    do on behalf of the source (pydantic validation, the FastAPI
    dispatch of a route, the slowapi decorator, the retry loop of the
    instructor client) is modelled in a module of its own, next to the
    statement of the source that calls it. *)

From Stdlib Require Import ZArith QArith Lia.
From stdpp Require Import gmap strings list pretty.

Set Warnings "-register-all".
Open Scope string_scope.

(** ** Python values *)

Module Py.

(** A Python [float]: the finite ones as rationals, and the three
    non-finite ones, which every ordered comparison with NaN rejects. *)
Inductive float :=
| Finite (q : Q)
| PosInf
| NegInf
| NaN.

Definition float_le (x y : float) : bool :=
  match x, y with
  | NaN, _ | _, NaN => false
  | NegInf, _ => true
  | _, PosInf => true
  | Finite a, Finite b => Qle_bool a b
  | _, _ => false
  end.

(** Values as they travel in request and response bodies and in the
    structured output of the completion API. *)
Inductive json :=
| JNull
| JBool (b : bool)
| JNum (x : float)
| JStr (s : string)
| JArr (items : list json)
| JObj (members : list (string * json)).

Definition is_str (v : json) : bool :=
  match v with JStr _ => true | _ => false end.

(** [d.get(k)] on a decoded object: when a key is repeated the last
    occurrence is the one kept. *)
Fixpoint member (k : string) (ms : list (string * json)) : option json :=
  match ms with
  | [] => None
  | (k', v) :: rest =>
      match member k rest with
      | Some v' => Some v'
      | None => if decide (k = k') then Some v else None
      end
  end.

(** An instance of [Exception] (or of one of its subclasses), by the name
    of its class and its [str()]. *)
Record Exception := { exc_class : string; exc_str : string }.

End Py.

Import Py.

(** ** pydantic models *)

Module Pydantic.

(** The annotation of a field together with its [Field(...)]
    constraints. *)
Inductive annotation :=
| Str (min_length max_length : option nat)
| Float (ge le : option Q)
| EnumOf (values : list string)
| ListOfStr.

(** A [BaseModel] subclass: its fields in declaration order. *)
Record BaseModel := {
  model_name : string;
  model_fields : list (string * annotation)
}.

Definition at_least (lo : option nat) (n : nat) : bool :=
  match lo with Some m => (m <=? n)%nat | None => true end.

Definition at_most (hi : option nat) (n : nat) : bool :=
  match hi with Some m => (n <=? m)%nat | None => true end.

Definition float_ge (lo : option Q) (x : float) : bool :=
  match lo with Some q => float_le (Finite q) x | None => true end.

Definition float_le_opt (hi : option Q) (x : float) : bool :=
  match hi with Some q => float_le x (Finite q) | None => true end.

(** Validation of one value against one annotation.  A conforming value
    is kept as it is; the coercions of lax mode (a numeric string for a
    float, and the like) are not part of the model, so the model accepts
    no value that pydantic rejects. *)
Definition conforms (a : annotation) (v : json) : bool :=
  match a, v with
  | Str lo hi, JStr s =>
      at_least lo (String.length s) && at_most hi (String.length s)
  | Float lo hi, JNum x => float_ge lo x && float_le_opt hi x
  | EnumOf values, JStr s => bool_decide (s ∈ values)
  | ListOfStr, JArr items => forallb is_str items
  | _, _ => false
  end.

(** What validation raises: the input is not JSON, is not an object, or
    has offending fields, given by their names.  The last one is the
    error FastAPI builds in the same form for a request body that
    [json.loads] gives up on at some position. *)
Inductive ValidationError :=
| JsonInvalid
| NotAnObject
| FieldErrors (locs : list string)
| JsonDecodeError (pos : nat).

(** A model instance: the validated value of each field, in declaration
    order. *)
Definition instance : Type := list (string * json).

Definition field_ok (ms : list (string * json)) (f : string * annotation) : bool :=
  match member f.1 ms with
  | Some v => conforms f.2 v
  | None => false
  end.

Definition field_value (ms : list (string * json)) (f : string * annotation)
  : string * json :=
  (f.1, default JNull (member f.1 ms)).

(** [Model.model_validate(v)]: every declared field has to be present
    and has to conform; undeclared members are ignored. *)
Definition model_validate (m : BaseModel) (v : json)
  : ValidationError + instance :=
  match v with
  | JObj ms =>
      match filter (λ f, field_ok ms f = false) (model_fields m) with
      | [] => inr (field_value ms <$> model_fields m)
      | bad => inl (FieldErrors (fst <$> bad))
      end
  | _ => inl NotAnObject
  end.

(** [Model.model_validate_json(text)], the text given by its decoding
    ([None] when it is not JSON). *)
Definition model_validate_json (m : BaseModel) (text : option json)
  : ValidationError + instance :=
  match text with
  | Some v => model_validate m v
  | None => inl JsonInvalid
  end.

(** [model_dump(mode="json")] *)
Definition model_dump (o : instance) : json := JObj o.

(** [exc.errors()], encoded for a response body: one object per error,
    with its location under the given prefix. *)
Definition errors (prefix : string) (e : ValidationError) : json :=
  let at_loc (loc : list json) := JObj [("loc", JArr (JStr prefix :: loc))] in
  match e with
  | JsonInvalid | NotAnObject => JArr [at_loc []]
  | FieldErrors locs => JArr ((λ l, at_loc [JStr l]) <$> locs)
  | JsonDecodeError pos => JArr [at_loc [JNum (Finite (inject_Z (Z.of_nat pos)))]]
  end.

End Pydantic.

Import Pydantic.

(** ** The models of [main.py] *)

Inductive TicketCategory :=
| ORDER_ISSUE
| ACCOUNT_ACCESS
| PRODUCT_INQUIRY
| TECHNICAL_SUPPORT
| BILLING
| OTHER.

Definition TicketCategory_value (c : TicketCategory) : string :=
  match c with
  | ORDER_ISSUE => "order_issue"
  | ACCOUNT_ACCESS => "account_access"
  | PRODUCT_INQUIRY => "product_inquiry"
  | TECHNICAL_SUPPORT => "technical_support"
  | BILLING => "billing"
  | OTHER => "other"
  end.

Definition TicketCategory_members : list TicketCategory :=
  [ORDER_ISSUE; ACCOUNT_ACCESS; PRODUCT_INQUIRY; TECHNICAL_SUPPORT; BILLING; OTHER].

Inductive CustomerSentiment :=
| ANGRY
| FRUSTRATED
| NEUTRAL
| SATISFIED.

Definition CustomerSentiment_value (s : CustomerSentiment) : string :=
  match s with
  | ANGRY => "angry"
  | FRUSTRATED => "frustrated"
  | NEUTRAL => "neutral"
  | SATISFIED => "satisfied"
  end.

Definition CustomerSentiment_members : list CustomerSentiment :=
  [ANGRY; FRUSTRATED; NEUTRAL; SATISFIED].

Inductive TicketUrgency :=
| LOW
| MEDIUM
| HIGH
| CRITICAL.

Definition TicketUrgency_value (u : TicketUrgency) : string :=
  match u with
  | LOW => "low"
  | MEDIUM => "medium"
  | HIGH => "high"
  | CRITICAL => "critical"
  end.

Definition TicketUrgency_members : list TicketUrgency :=
  [LOW; MEDIUM; HIGH; CRITICAL].

Definition TicketClassification : BaseModel := {|
  model_name := "TicketClassification";
  model_fields := [
    ("category", EnumOf (TicketCategory_value <$> TicketCategory_members));
    ("urgency", EnumOf (TicketUrgency_value <$> TicketUrgency_members));
    ("sentiment", EnumOf (CustomerSentiment_value <$> CustomerSentiment_members));
    ("confidence", Float (Some 0%Q) (Some 1%Q));
    ("key_information", ListOfStr);
    ("suggested_action", Str None None)
  ]
|}.

Definition TicketRequest : BaseModel := {|
  model_name := "TicketRequest";
  model_fields := [("text", Str (Some 10%nat) (Some 1000%nat))]
|}.

Definition SYSTEM_PROMPT : string := "
You are an AI assistant for a large e-commerce platform's customer support team. 
Your role is to analyze incoming customer support tickets and provide structured information to help our team respond quickly and effectively.
Business Context:
- We handle thousands of tickets daily across various categories (orders, accounts, products, technical issues, billing).
- Quick and accurate classification is crucial for customer satisfaction and operational efficiency.
- We prioritize based on urgency and customer sentiment.
Your tasks:
1. Categorize the ticket into the most appropriate category.
2. Assess the urgency of the issue (low, medium, high, critical).
3. Determine the customer's sentiment.
4. Extract key information that would be helpful for our support team.
5. Suggest an initial action for handling the ticket.
6. Provide a confidence score for your classification.
Remember:
- Be objective and base your analysis solely on the information provided in the ticket.
- If you're unsure about any aspect, reflect that in your confidence score.
- For 'key_information', extract specific details like order numbers, product names, or account issues.
- The 'suggested_action' should be a brief, actionable step for our support team.
Analyze the following customer support ticket and provide the requested information in the specified format.
".

(** ** [config.py] *)

Module Config.

Record Settings := {
  openai_api_key : string;
  api_key : string
}.

End Config.

(** ** Process state and control flow *)

Inductive Level :=
| INFO
| WARNING
| ERROR.

(** A record emitted through [logger] of [main.py]. *)
Record LogRecord := {
  levelname : Level;
  message : string
}.

Record Message := {
  role : string;
  content : string
}.

(** A request to the chat-completions API as it leaves the process. *)
Record ChatCompletion := {
  chat_model : string;
  chat_temperature : Z;
  chat_tool : BaseModel;
  chat_messages : list Message
}.

(** The storage of the rate limiter: a counter and an expiry time per
    key. *)
Record MemoryStorage := {
  storage : gmap string nat;
  expirations : gmap string Z
}.

(** The arguments of one call of [client.chat.completions.create]. *)
Record CreateArgs := {
  model : string;
  response_model : BaseModel;
  temperature : Z;
  max_retries : nat;
  messages : list Message
}.

(** The state of the process, as far as the endpoint reads or writes it:
    the records logged so far, the calls made on the model client and the
    requests these sent to the completion API (oldest first), and the
    storage of the rate limiter. *)
Record World := {
  records : list LogRecord;
  calls : list CreateArgs;
  sent : list ChatCompletion;
  limiter_storage : MemoryStorage
}.

(** A computation that reads and updates the process state and either
    returns a value or raises an exception of type [E]. *)
Definition M (E A : Type) : Type := World → (E + A) * World.

#[export] Instance M_ret {E} : MRet (M E) :=
  λ A (a : A) w, (inr a, w).

#[export] Instance M_bind {E} : MBind (M E) :=
  λ A B (k : A → M E B) (m : M E A) w,
    match m w with
    | (inr a, w') => k a w'
    | (inl e, w') => (inl e, w')
    end.

Definition raise {E A} (e : E) : M E A :=
  λ w, (inl e, w).

(** [try: body except Exception as e: handler(e)] *)
Definition try_except {E E' A} (body : M E A) (handler : E → M E' A) : M E' A :=
  λ w,
    match body w with
    | (inr a, w') => (inr a, w')
    | (inl e, w') => handler e w'
    end.

Definition emit {E} (l : Level) (msg : string) : M E unit :=
  λ w, (inr (), {| records := records w ++ [{| levelname := l; message := msg |}];
                   calls := calls w;
                   sent := sent w;
                   limiter_storage := limiter_storage w |}).

Definition logger_info {E} : string → M E unit := emit INFO.
Definition logger_error {E} : string → M E unit := emit ERROR.

(** ** Requests, responses and the exceptions of the web stack *)

(** A request as the dependencies of a route and its endpoint get to see
    it, that is once its body has been read and decoded: the host of the
    peer when there is one, what the [X-API-Key] header yields, the value
    the body has decoded to, and what [time.time()] reads (in seconds)
    while the request is served. *)
Record Request := {
  client_host : option string;
  x_api_key : option string;
  body : json;
  now : Z
}.

Record JSONResponse := {
  status_code : Z;
  response_content : option json
}.

(** What reading the body of a request comes to.  [Received v]: a value
    is handed on to the dependencies, which is the value the bytes
    decode to, [None] (here [JNull]) when there are no bytes, and the
    bytes as they are (some [v] that is no object) under a content type
    other than JSON.  [Malformed pos]: [json.loads] raises
    [JSONDecodeError] at [pos].  [Unreadable]: reading or decoding raises
    anything else. *)
Inductive Payload :=
| Received (v : json)
| Malformed (pos : nat)
| Unreadable.

(** A request as it arrives: the host of the peer when there is one, the
    [X-API-Key] header when it is there, what reading the body comes to,
    and what [time.time()] reads while the request is served. *)
Record Incoming := {
  peer : option string;
  header : option string;
  payload : Payload;
  received_at : Z
}.

(** A parsed rate limit, such as [10/minute]: so many hits per window of
    so many seconds, and its [str()]. *)
Record RateLimitItem := {
  amount : nat;
  expiry : Z;
  limit_str : string
}.

(** The exceptions that travel through the endpoint: the two HTTP
    exceptions, the validation errors of the request body and of the
    returned value, and any other instance of [Exception]. *)
Inductive exn :=
| HTTPException (status : Z) (detail : string)
| RateLimitExceeded (limit : RateLimitItem)
| RequestValidationError (errs : ValidationError)
| ResponseValidationError (errs : ValidationError)
| Error (e : Exception).

(** [self.status_code] and [self.detail], which only the two HTTP
    exceptions have. *)
Definition exc_status_code (e : exn) : option Z :=
  match e with
  | HTTPException status _ => Some status
  | RateLimitExceeded _ => Some 429%Z
  | _ => None
  end.

Definition exc_detail (e : exn) : option string :=
  match e with
  | HTTPException _ detail => Some detail
  | RateLimitExceeded limit => Some (limit_str limit)
  | _ => None
  end.

(** ** The rate limiter: [limits] and [slowapi] *)

Module Limits.

(** [MemoryStorage.get]: an entry whose expiry time has passed is dropped
    on access (the storage also drops such entries on a timer of its
    own, which no access can tell from this). *)
Definition get (key : string) (t : Z) (s : MemoryStorage) : MemoryStorage :=
  if decide (default 0 (expirations s !! key) ≤ t)%Z
  then {| storage := delete key (storage s);
          expirations := delete key (expirations s) |}
  else s.

(** [MemoryStorage.incr]: the counter goes up by one, and the entry
    expires [expiry] seconds after the hit that created it. *)
Definition incr (key : string) (expiry t : Z) (s : MemoryStorage)
  : nat * MemoryStorage :=
  let s1 := get key t s in
  let n := (default 0 (storage s1 !! key) + 1)%nat in
  (n, {| storage := <[key := n]> (storage s1);
         expirations := if decide (n = 1%nat)
                        then <[key := (t + expiry)%Z]> (expirations s1)
                        else expirations s1 |}).

(** [FixedWindowRateLimiter.hit], the strategy slowapi uses when none is
    given. *)
Definition hit (item : RateLimitItem) (key : string) (t : Z) (s : MemoryStorage)
  : bool * MemoryStorage :=
  let '(n, s') := incr key (expiry item) t s in
  ((n <=? amount item)%nat, s').

(** [parse("10/minute")] *)
Definition ten_per_minute : RateLimitItem :=
  {| amount := 10; expiry := 60; limit_str := "10 per 1 minute" |}.

End Limits.

Module SlowAPI.

Definition get_remote_address (request : Request) : string :=
  match client_host request with
  | Some host => if decide (host = "") then "127.0.0.1" else host
  | None => "127.0.0.1"
  end.

(** [Limiter._check_request_limit] for a limiter keyed by
    [get_remote_address], with one limit on one route (the scope of the
    route, which is part of the storage key, is the same for every
    request and is left out). *)
Definition check_request_limit (item : RateLimitItem) (request : Request)
  : M exn unit :=
  λ w,
    let '(ok, s') := Limits.hit item (get_remote_address request) (now request)
                                (limiter_storage w) in
    let w' := {| records := records w;
                 calls := calls w;
                 sent := sent w;
                 limiter_storage := s' |} in
    if ok then (inr (), w') else (inl (RateLimitExceeded item), w').

(** [@limiter.limit(item)]: the decorated function checks the limit and
    then runs the function it wraps. *)
Definition limit {A} (item : RateLimitItem) (func : Request → M exn A)
  : Request → M exn A :=
  λ request, _ ← check_request_limit item request; func request.

End SlowAPI.

(** ** What the source leaves to its runtime *)

(** The names of the members of [TicketCategory], and the member a value
    belongs to: [TicketCategory(value)]. *)
Definition TicketCategory_name (c : TicketCategory) : string :=
  match c with
  | ORDER_ISSUE => "ORDER_ISSUE"
  | ACCOUNT_ACCESS => "ACCOUNT_ACCESS"
  | PRODUCT_INQUIRY => "PRODUCT_INQUIRY"
  | TECHNICAL_SUPPORT => "TECHNICAL_SUPPORT"
  | BILLING => "BILLING"
  | OTHER => "OTHER"
  end.

Definition TicketCategory_of_value (value : string) : option TicketCategory :=
  head (filter (λ c, TicketCategory_value c = value) TicketCategory_members).

(** The source pins neither the version of the interpreter nor that of
    [instructor], and three things it does depend on them:
    - how many attempts [max_retries] grants after the first one (one
      less than [max_retries] in some releases of [instructor], as many
      as [max_retries] in others);
    - whether an attempt in which the call on the completion API raises
      is followed by another one, as one whose output does not validate
      always is (every exception is in some releases, none in others);
    - what an f-string makes of a member of a [str]-mixin enum (its value
      before Python 3.11, the qualified name of the member since). *)
Class Runtime := {
  further_attempts : nat → nat;
  retried : Exception → bool;
  format_category : TicketCategory → string
}.

(** ** The model client: [openai] patched by [instructor] *)

(** What the completion API does with a request: the call raises, or it
    returns the arguments of the tool call as text, given here by its
    decoding ([None] when the text is not JSON). *)
Inductive Reply :=
| Raises (e : Exception)
| Returns (arguments : option json).

Module Instructor.

Section Client.

Context {runtime : Runtime}.

(** The completion API answers the last of the requests sent so far. *)
Variable provider : list ChatCompletion → Reply.

(** The messages appended to the conversation before asking again, and
    the [str()] of a validation error. *)
Variable reask_messages : option json → ValidationError → list Message.
Variable describe : ValidationError → string.

(** The unpatched [chat.completions.create]. *)
Definition post (c : ChatCompletion) : M Exception (option json) :=
  λ w,
    let w' := {| records := records w;
                 calls := calls w;
                 sent := sent w ++ [c];
                 limiter_storage := limiter_storage w |} in
    match provider (sent w') with
    | Raises e => (inl e, w')
    | Returns arguments => (inr arguments, w')
    end.

Definition validation_exception (err : ValidationError) : Exception :=
  {| exc_class := "ValidationError"; exc_str := describe err |}.

Definition InstructorRetryException (last : Exception) : Exception :=
  {| exc_class := "InstructorRetryException"; exc_str := exc_str last |}.

(** One attempt: the instance the output validates to, or else the
    exception of the attempt and the request to make next; an exception
    of the call that is not retried is raised on the spot. *)
Definition attempt (c : ChatCompletion)
  : M Exception (Exception * ChatCompletion + instance) :=
  try_except
    (arguments ← post c;
     match model_validate_json (chat_tool c) arguments with
     | inr obj => mret (inr obj)
     | inl err =>
         mret (inl (validation_exception err,
                    {| chat_model := chat_model c;
                       chat_temperature := chat_temperature c;
                       chat_tool := chat_tool c;
                       chat_messages :=
                         chat_messages c ++ reask_messages arguments err |}))
     end)
    (λ e, if retried e then mret (inl (e, c)) else raise e).

(** [retry_sync]: a failed attempt is followed by another one as long as
    the budget lasts; when it is spent the last exception is wrapped. *)
Fixpoint retry_sync (more : nat) (c : ChatCompletion) : M Exception instance :=
  r ← attempt c;
  match r with
  | inr obj => mret obj
  | inl (e, c') =>
      match more with
      | O => raise (InstructorRetryException e)
      | S n => retry_sync n c'
      end
  end.

(** [client.chat.completions.create(...)] of the patched client: the
    first attempt is always made, and [max_retries] grants the further
    ones. *)
Definition create (args : CreateArgs) : M Exception instance :=
  λ w,
    retry_sync (further_attempts (max_retries args))
      {| chat_model := model args;
         chat_temperature := temperature args;
         chat_tool := response_model args;
         chat_messages := messages args |}
      {| records := records w;
         calls := calls w ++ [args];
         sent := sent w;
         limiter_storage := limiter_storage w |}.

End Client.

End Instructor.

(** ** Routing and exception handlers: [fastapi] *)

Module FastAPI.

(** The classes an exception handler can be registered for. *)
Inductive ExcClass :=
| C_RateLimitExceeded
| C_HTTPException
| C_StarletteHTTPException
| C_RequestValidationError
| C_ResponseValidationError
| C_Exception
| C_Other (name : string).

#[export] Instance ExcClass_eq_dec : EqDecision ExcClass.
Proof. solve_decision. Defined.

(** [type(exc).__mro__], up to [Exception]. *)
Definition mro (exc : exn) : list ExcClass :=
  match exc with
  | HTTPException _ _ => [C_HTTPException; C_StarletteHTTPException; C_Exception]
  | RateLimitExceeded _ => [C_RateLimitExceeded; C_StarletteHTTPException; C_Exception]
  | RequestValidationError _ => [C_RequestValidationError; C_Exception]
  | ResponseValidationError _ => [C_ResponseValidationError; C_Exception]
  | Error e => [C_Other (exc_class e); C_Exception]
  end.

Definition Handler : Type := Request → exn → World → JSONResponse * World.

(** [app.exception_handlers], latest registration first. *)
Definition Registry : Type := list (ExcClass * Handler).

Fixpoint registered (cls : ExcClass) (reg : Registry) : option Handler :=
  match reg with
  | [] => None
  | (c, h) :: rest => if decide (c = cls) then Some h else registered cls rest
  end.

(** The handler of the first class of the MRO that has one. *)
Fixpoint lookup_handler (reg : Registry) (classes : list ExcClass) : option Handler :=
  match classes with
  | [] => None
  | c :: rest =>
      match registered c reg with
      | Some h => Some h
      | None => lookup_handler reg rest
      end
  end.

Definition is_body_allowed_for_status_code (status : Z) : bool :=
  negb ((status <? 200)%Z || (status =? 204)%Z || (status =? 205)%Z
        || (status =? 304)%Z).

Definition internal_server_error : JSONResponse :=
  {| status_code := 500; response_content := None |}.

(** [fastapi.exception_handlers.http_exception_handler], the handler a
    new application has for HTTP exceptions. *)
Definition fastapi_http_exception_handler : Handler :=
  λ request exc w,
    match exc_status_code exc, exc_detail exc with
    | Some status, Some detail =>
        if is_body_allowed_for_status_code status
        then ({| status_code := status;
                 response_content := Some (JObj [("detail", JStr detail)]) |}, w)
        else ({| status_code := status; response_content := None |}, w)
    | _, _ => (internal_server_error, w)
    end.

(** [fastapi.exception_handlers.request_validation_exception_handler] *)
Definition request_validation_exception_handler : Handler :=
  λ request exc w,
    match exc with
    | RequestValidationError errs =>
        ({| status_code := 422;
            response_content := Some (JObj [("detail", errors "body" errs)]) |}, w)
    | _ => (internal_server_error, w)
    end.

(** [FastAPI(...)]: the handlers of a new application. *)
Definition init : Registry :=
  [(C_StarletteHTTPException, fastapi_http_exception_handler);
   (C_RequestValidationError, request_validation_exception_handler)].

Definition add_exception_handler (cls : ExcClass) (handler : Handler)
  (app : Registry) : Registry :=
  (cls, handler) :: app.

(** [app.exception_handler(cls)] is a decorator: it registers the
    function it is applied to. *)
Definition exception_handler (cls : ExcClass) : Handler → Registry → Registry :=
  λ func app, add_exception_handler cls func app.

(** The response to an exception that escapes the route. *)
Definition respond (app : Registry) (request : Request) (exc : exn)
  : World → JSONResponse * World :=
  match lookup_handler app (mro exc) with
  | Some handler => handler request exc
  | None => λ w, (internal_server_error, w)
  end.

(** A body parameter annotated with a model. *)
Definition request_body (m : BaseModel) (v : json) : M exn instance :=
  match model_validate m v with
  | inr obj => mret obj
  | inl err => raise (RequestValidationError err)
  end.

(** [response_model=m]: what the endpoint returns is validated against
    the model and dumped. *)
Definition serialize_response (m : BaseModel) (result : instance) : M exn json :=
  match model_validate m (model_dump result) with
  | inr obj => mret (model_dump obj)
  | inl err => raise (ResponseValidationError err)
  end.

End FastAPI.

Import FastAPI.

(** ** The service *)

Section Service.

Context {runtime : Runtime}.

(** [settings = Settings()], read from the environment at start-up. *)
Variable settings : Config.Settings.

(** The completion API behind [client], and the two renderings the
    patched client leaves to its libraries. *)
Variable provider : list ChatCompletion → Reply.
Variable reask_messages : option json → ValidationError → list Message.
Variable describe : ValidationError → string.

(** [client.chat.completions.create].  The client is built once, when the
    module is loaded, from [settings.OPENAI_API_KEY] (line 49; the field
    [config.py] declares is [openai_api_key]); what follows is about a
    process in which it has been built. *)
Definition client_chat_completions_create : CreateArgs → M Exception instance :=
  Instructor.create provider reask_messages describe.

(** *** [security.py] *)

(** The header is read with [auto_error=False]: a request without it, or
    with an empty one, reaches the function with [None]. *)
Definition authenticate_api_key (api_key : option string) : M exn (option string) :=
  if decide (api_key ≠ Some (Config.api_key settings))
  then raise (HTTPException 403 "Could not validate API key")
  else mret api_key.

(** *** [main.py] *)

Definition classify_ticket (ticket_text : string) : M exn instance :=
  try_except
    (client_chat_completions_create
       {| model := "gpt-4o-mini";
          response_model := TicketClassification;
          temperature := 0;
          max_retries := 3;
          messages := [{| role := "system"; content := SYSTEM_PROMPT |};
                       {| role := "user"; content := ticket_text |}] |})
    (λ e,
       _ ← logger_error ("Error classifying ticket: " ++ exc_str e);
       raise (HTTPException 500 "Error classifying ticket")).

(** [obj.name] where the attribute is a [str] field. *)
Definition getattr_str (obj : instance) (name : string) : M exn string :=
  match member name obj with
  | Some (JStr s) => mret s
  | _ => raise (Error {| exc_class := "AttributeError"; exc_str := name |})
  end.

(** [obj.name] where the attribute is a [TicketCategory] field: the
    member the instance holds. *)
Definition getattr_category (obj : instance) (name : string)
  : M exn TicketCategory :=
  match member name obj with
  | Some (JStr value) =>
      match TicketCategory_of_value value with
      | Some c => mret c
      | None => raise (Error {| exc_class := "AttributeError"; exc_str := name |})
      end
  | _ => raise (Error {| exc_class := "AttributeError"; exc_str := name |})
  end.

Definition api_classify_ticket (request : Request) (ticket : instance)
  (api_key : option string) : M exn instance :=
  text ← getattr_str ticket "text";
  result ← classify_ticket text;
  category ← getattr_category result "category";
  _ ← logger_info ("Ticket classified: " ++ format_category category);
  mret result.

(** [str(exc)] *)
Definition exn_str (exc : exn) : string :=
  match exc with
  | HTTPException status detail => pretty status ++ ": " ++ detail
  | RateLimitExceeded limit => "429: " ++ limit_str limit
  | RequestValidationError errs => describe errs
  | ResponseValidationError errs => describe errs
  | Error e => exc_str e
  end.

(** Defined in [main.py], lines 195 to 199. *)
Definition http_exception_handler : Handler :=
  λ request exc w,
    match exc_status_code exc, exc_detail exc with
    | Some status, Some detail =>
        ({| status_code := status;
            response_content := Some (JObj [("message", JStr detail)]) |}, w)
    | _, _ => (internal_server_error, w)
    end.

Definition general_exception_handler : Handler :=
  λ request exc w,
    match logger_error (E := exn) ("Unhandled exception: " ++ exn_str exc) w with
    | (_, w') =>
        ({| status_code := 500;
            response_content :=
              Some (JObj [("message", JStr "An unexpected error occurred")]) |}, w')
    end.

(** [slowapi._rate_limit_exceeded_handler] *)
Definition _rate_limit_exceeded_handler : Handler :=
  λ request exc w,
    match exc_detail exc with
    | Some detail =>
        ({| status_code := 429;
            response_content :=
              Some (JObj [("error", JStr ("Rate limit exceeded: " ++ detail))]) |}, w)
    | None => (internal_server_error, w)
    end.

(** The exception handlers of [app] once the module has been executed,
    statement by statement: line 66 registers the handler of the rate
    limiter; line 192 builds the decorator for [HTTPException] and drops
    it, so that the function defined at line 195 is registered nowhere;
    line 202 decorates [general_exception_handler]. *)
Definition app_exception_handlers : Registry :=
  let app := FastAPI.init in
  let app := add_exception_handler C_RateLimitExceeded _rate_limit_exceeded_handler app in
  let _ := exception_handler C_HTTPException in
  let app := exception_handler C_Exception general_exception_handler app in
  app.

(** The route [POST /classify_ticket], from the point where the body has
    been read ([receive] below is the whole of it).  FastAPI solves the
    dependencies of the endpoint before it calls it: first
    [Depends(authenticate_api_key)], with what [APIKeyHeader] yields, then
    the body parameter [ticket]; what it calls is the function as
    decorated by [@limiter.limit("10/minute")]; what that returns goes
    through [response_model]. *)
Definition route_classify_ticket (request : Request) : M exn json :=
  api_key ← authenticate_api_key (x_api_key request);
  ticket ← request_body TicketRequest (body request);
  result ← SlowAPI.limit Limits.ten_per_minute
             (λ request, api_classify_ticket request ticket api_key) request;
  serialize_response TicketClassification result.

(** One request whose body has been read, served by the application. *)
Definition post_classify_ticket (request : Request) : World → JSONResponse * World :=
  λ w,
    match route_classify_ticket request w with
    | (inr content, w') =>
        ({| status_code := 200; response_content := Some content |}, w')
    | (inl exc, w') => respond app_exception_handlers request exc w'
    end.

(** A sequence of requests served one after the other. *)
Fixpoint serve (requests : list Request) (w : World) : list JSONResponse * World :=
  match requests with
  | [] => ([], w)
  | request :: rest =>
      let '(response, w') := post_classify_ticket request w in
      let '(responses, w'') := serve rest w' in
      (response :: responses, w'')
  end.

End Service.

(** ** What the caller is promised *)

(** The field constraints of a classification, on the value as the caller
    receives it: the six fields, each enum field holding the value of a
    member of its enum, the confidence between 0 and 1, the key
    information a list of strings and the suggested action a string. *)
Definition is_classification (v : json) : Prop :=
  ∃ (category : TicketCategory) (urgency : TicketUrgency)
    (sentiment : CustomerSentiment) (confidence : Q)
    (key_information : list string) (suggested_action : string),
    v = JObj [("category", JStr (TicketCategory_value category));
              ("urgency", JStr (TicketUrgency_value urgency));
              ("sentiment", JStr (CustomerSentiment_value sentiment));
              ("confidence", JNum (Finite confidence));
              ("key_information", JArr (JStr <$> key_information));
              ("suggested_action", JStr suggested_action)]
    ∧ (0 <= confidence)%Q ∧ (confidence <= 1)%Q.

(** The arguments [classify_ticket] is to call the model client with. *)
Definition classification_call (ticket_text : string) : CreateArgs :=
  {| model := "gpt-4o-mini";
     response_model := TicketClassification;
     temperature := 0;
     max_retries := 3;
     messages := [{| role := "system"; content := SYSTEM_PROMPT |};
                  {| role := "user"; content := ticket_text |}] |}.

(** The world after one more record has been logged. *)
Definition logged (l : Level) (msg : string) (w : World) : World :=
  {| records := records w ++ [{| levelname := l; message := msg |}];
     calls := calls w;
     sent := sent w;
     limiter_storage := limiter_storage w |}.

(** The world after a call on the model client has been recorded, and
    after requests have been sent to the completion API. *)
Definition calling (args : CreateArgs) (w : World) : World :=
  {| records := records w;
     calls := calls w ++ [args];
     sent := sent w;
     limiter_storage := limiter_storage w |}.

Definition sending (cs : list ChatCompletion) (w : World) : World :=
  {| records := records w;
     calls := calls w;
     sent := sent w ++ cs;
     limiter_storage := limiter_storage w |}.

(** The first request a call of the model client sends. *)
Definition first_completion (args : CreateArgs) : ChatCompletion :=
  {| chat_model := model args;
     chat_temperature := temperature args;
     chat_tool := response_model args;
     chat_messages := messages args |}.

(** Two requests that differ in the conversation at most. *)
Definition same_settings (c c' : ChatCompletion) : Prop :=
  chat_model c' = chat_model c
  ∧ chat_temperature c' = chat_temperature c
  ∧ chat_tool c' = chat_tool c.

(** The world after the rate limiter has updated its storage. *)
Definition limited (s : MemoryStorage) (w : World) : World :=
  {| records := records w;
     calls := calls w;
     sent := sent w;
     limiter_storage := s |}.

(** The counter of a key and the time its window ends, read the way the
    storage reads them: 0 when there is no entry. *)
Definition counter (s : MemoryStorage) (key : string) : nat :=
  default 0%nat (storage s !! key).

Definition window_end (s : MemoryStorage) (key : string) : Z :=
  default 0%Z (expirations s !! key).

(** The four error responses of the route. *)
Definition forbidden : JSONResponse :=
  {| status_code := 403;
     response_content := Some (JObj [("detail", JStr "Could not validate API key")]) |}.

Definition unprocessable (err : ValidationError) : JSONResponse :=
  {| status_code := 422;
     response_content := Some (JObj [("detail", errors "body" err)]) |}.

Definition too_many_requests : JSONResponse :=
  {| status_code := 429;
     response_content :=
       Some (JObj [("error", JStr "Rate limit exceeded: 10 per 1 minute")]) |}.

Definition classification_failed : JSONResponse :=
  {| status_code := 500;
     response_content := Some (JObj [("detail", JStr "Error classifying ticket")]) |}.

(** The category an instance of [TicketClassification] holds: its value,
    and the member it is the value of ([OTHER] where there is none, which
    validation rules out). *)
Definition category_of (obj : instance) : string :=
  match member "category" obj with
  | Some (JStr s) => s
  | _ => ""
  end.

Definition held_category (obj : instance) : TicketCategory :=
  default OTHER (TicketCategory_of_value (category_of obj)).

(** A request that gets past the dependencies of the route: its key is
    the configured one and its body validates as a [TicketRequest]. *)
Definition admissible (settings : Config.Settings) (request : Request) : Prop :=
  x_api_key request = Some (Config.api_key settings)
  ∧ ∃ ticket, model_validate TicketRequest (body request) = inr ticket.

(** [admissible], decided. *)
Definition admissibleb (settings : Config.Settings) (request : Request) : bool :=
  bool_decide (x_api_key request = Some (Config.api_key settings))
  && match model_validate TicketRequest (body request) with
     | inr _ => true
     | inl _ => false
     end.

(** The requests that count against an address: the admissible ones that
    come from it. *)
Definition counted (settings : Config.Settings) (key : string) (request : Request)
  : bool :=
  admissibleb settings request
  && bool_decide (SlowAPI.get_remote_address request = key).

Definition requests_from (settings : Config.Settings) (key : string)
  (requests : list Request) : nat :=
  length (filter (λ r, counted settings key r = true) requests).

(** Of the responses to a sequence of requests, those to the requests
    that count against an address. *)
Definition answers_to (settings : Config.Settings) (key : string)
  (requests : list Request) (responses : list JSONResponse) : list JSONResponse :=
  snd <$> filter (λ p, counted settings key p.1 = true) (zip requests responses).

(** ** Sample inputs *)

Module Samples.

Definition settings : Config.Settings :=
  {| Config.openai_api_key := "sk-test"; Config.api_key := "s3cret" |}.

Definition start : World :=
  {| records := [];
     calls := [];
     sent := [];
     limiter_storage := {| storage := ∅; expirations := ∅ |} |}.

Definition refund : json :=
  JObj [("category", JStr "order_issue");
        ("urgency", JStr "high");
        ("sentiment", JStr "frustrated");
        ("confidence", JNum (Finite (9 # 10)));
        ("key_information", JArr [JStr "order #12345"]);
        ("suggested_action", JStr "Trace the shipment and offer a refund")].

Definition overconfident : json :=
  JObj [("category", JStr "order_issue");
        ("urgency", JStr "high");
        ("sentiment", JStr "frustrated");
        ("confidence", JNum (Finite (3 # 2)));
        ("key_information", JArr [JStr "order #12345"]);
        ("suggested_action", JStr "Trace the shipment and offer a refund")].

(** Three stubs for the completion API: one that always answers with a
    valid classification, one whose answers never validate, and one that
    fails on every call. *)
Definition answering : list ChatCompletion → Reply :=
  λ _, Returns (Some refund).

Definition rambling : list ChatCompletion → Reply :=
  λ _, Returns (Some overconfident).

Definition failing (text : string) : list ChatCompletion → Reply :=
  λ _, Raises {| exc_class := "APIConnectionError"; exc_str := text |}.

Definition reask_messages : option json → ValidationError → list Message :=
  λ _ _, [{| role := "user"; content := "Correct the errors and answer again" |}].

Definition describe : ValidationError → string :=
  λ _, "1 validation error for TicketClassification".

Definition ticket_text : string :=
  "My order #12345 never arrived and I want a refund!".

Definition request (host : string) (key : option string) (text : string) (t : Z)
  : Request :=
  {| client_host := Some host;
     x_api_key := key;
     body := JObj [("text", JStr text)];
     now := t |}.

(** An authenticated, valid request from [host] at time [t]. *)
Definition ticket_from (host : string) (t : Z) : Request :=
  request host (Some "s3cret") ticket_text t.

Definition host : string := "203.0.113.7".
Definition other_host : string := "198.51.100.9".

(** Eleven tickets from one address within the same second. *)
Definition eleven : list Request :=
  replicate 11 (ticket_from host 100).

(** The same eleven, one of them from another address. *)
Definition two_hosts : list Request :=
  replicate 10 (ticket_from host 100) ++ [ticket_from other_host 100].

(** A ticket at time 0, and then eleven within six seconds: five before
    the window of the first one ends and six after. *)
Definition boundary_burst : list Request :=
  ticket_from host 0
    :: replicate 5 (ticket_from host 55) ++ replicate 6 (ticket_from host 61).

(** Ten tickets and then a request without a key, within the same
    second. *)
Definition keyless_last : list Request :=
  replicate 10 (ticket_from host 100) ++ [request host None ticket_text 100].

(** Ten requests with a wrong key and then a ticket, within the same
    second. *)
Definition guesses_then_ticket : list Request :=
  replicate 10 (request host (Some "guess") ticket_text 100)
    ++ [ticket_from host 100].

(** Ten tickets of one address, then a request without a key from it and
    a ticket of another address, and then an eleventh ticket. *)
Definition interleaved : list Request :=
  replicate 10 (ticket_from host 100)
    ++ [request host None ticket_text 101;
        ticket_from other_host 102;
        ticket_from host 103].

Definition short_request : Request :=
  request host (Some "s3cret") "too short" 100.

(** Settings in which the service key has been left empty. *)
Definition unset : Config.Settings :=
  {| Config.openai_api_key := "sk-test"; Config.api_key := "" |}.

(** A request from [host] as it arrives at time 100, and a ticket in its
    body. *)
Definition arriving (key : option string) (p : Payload) : Incoming :=
  {| peer := Some host; header := key; payload := p; received_at := 100 |}.

Definition ticket : Payload :=
  Received (JObj [("text", JStr ticket_text)]).

(** Two runtimes.  On the recent one (Python 3.11 or later, and an
    [instructor] that makes as many further attempts as [max_retries]
    says and leaves an exception of the completion API alone) a member
    of [TicketCategory] formats as its qualified name; on the earlier
    one [max_retries] counts the first attempt too, every exception is
    retried, and a member formats as its value. *)
Definition recent : Runtime :=
  {| further_attempts := λ n, n;
     retried := λ _, false;
     format_category := λ c, "TicketCategory." ++ TicketCategory_name c |}.

Definition earlier : Runtime :=
  {| further_attempts := λ n, (n - 1)%nat;
     retried := λ _, true;
     format_category := TicketCategory_value |}.

End Samples.

(** ** The rest of the modules *)

(** [getattr(settings, name)]: an instance of [Settings] has the two
    fields [config.py] declares, under the names they are declared with;
    any other name raises [AttributeError]. *)
Definition Settings_getattr (settings : Config.Settings) (name : string)
  : Exception + string :=
  if decide (name = "openai_api_key") then inr (Config.openai_api_key settings)
  else if decide (name = "api_key") then inr (Config.api_key settings)
  else inl {| exc_class := "AttributeError";
              exc_str := "'Settings' object has no attribute '" ++ name ++ "'" |}.

(** Line 49 of [main.py], [OpenAI(api_key=settings.OPENAI_API_KEY)]: the
    key the client is to be built with. *)
Definition main_openai_api_key (settings : Config.Settings) : Exception + string :=
  Settings_getattr settings "OPENAI_API_KEY".

(** Line 10 of [security.py], [settings.api_key]. *)
Definition security_api_key (settings : Config.Settings) : Exception + string :=
  Settings_getattr settings "api_key".

(** [GET /health].  The timestamp is what [datetime.now().isoformat()]
    gives when the request is served. *)
Definition health (timestamp : string) : json :=
  JObj [("status", JStr "healthy"); ("timestamp", JStr timestamp)].

(** The two routes of the application. *)
Inductive Call :=
| PostClassifyTicket (request : Request)
| GetHealth (timestamp : string).

Section Application.

Context {runtime : Runtime}.

Variable settings : Config.Settings.
Variable provider : list ChatCompletion → Reply.
Variable reask_messages : option json → ValidationError → list Message.
Variable describe : ValidationError → string.

(** One call served by the application: the health route has no
    dependency and no decorator, and its function touches nothing. *)
Definition app (call : Call) : World → JSONResponse * World :=
  match call with
  | PostClassifyTicket request =>
      post_classify_ticket settings provider reask_messages describe request
  | GetHealth timestamp =>
      λ w, ({| status_code := 200; response_content := Some (health timestamp) |}, w)
  end.

Fixpoint serve_calls (calls : list Call) (w : World) : list JSONResponse * World :=
  match calls with
  | [] => ([], w)
  | call :: rest =>
      let '(response, w') := app call w in
      let '(responses, w'') := serve_calls rest w' in
      (response :: responses, w'')
  end.

(** *** From the wire to the route

    Before FastAPI solves the dependencies of a route with a body
    parameter it reads the body of the request, and [APIKeyHeader] of
    [security.py] is what reads the header for [authenticate_api_key]. *)

(** [APIKeyHeader(name="X-API-Key", auto_error=False)]: the value of the
    header, and [None] when the header is missing or empty. *)
Definition api_key_header (header : option string) : option string :=
  match header with
  | Some value => if decide (value = "") then None else Some value
  | None => None
  end.

(** [receive] reads the body and, when that works, hands the request on
    to the route as [seen]: FastAPI's view of it once [body] is known. *)
Definition seen (r : Incoming) (v : json) : Request :=
  {| client_host := peer r;
     x_api_key := api_key_header (header r);
     body := v;
     now := received_at r |}.

(** One request to [POST /classify_ticket] as the application receives
    it.  A body that [json.loads] rejects is answered through
    [RequestValidationError], any other failure to read it through an
    [HTTPException] with status 400; neither the dependencies nor the
    endpoint are reached then ([body] is still [None] when the handler
    gets the request). *)
Definition receive (r : Incoming) : World → JSONResponse * World :=
  match payload r with
  | Received v =>
      post_classify_ticket settings provider reask_messages describe (seen r v)
  | Malformed pos =>
      respond (app_exception_handlers describe) (seen r JNull)
        (RequestValidationError (JsonDecodeError pos))
  | Unreadable =>
      respond (app_exception_handlers describe) (seen r JNull)
        (HTTPException 400 "There was an error parsing the body")
  end.

End Application.

(** The response to a body that could not be read. *)
Definition bad_request : JSONResponse :=
  {| status_code := 400;
     response_content :=
       Some (JObj [("detail", JStr "There was an error parsing the body")]) |}.

(** A request the route admits: its body is read, its header yields the
    configured key, and the value of the body validates as a
    [TicketRequest]. *)
Definition admitted (settings : Config.Settings) (r : Incoming) : Prop :=
  ∃ v, payload r = Received v ∧ admissible settings (seen r v).

(** The requests to [POST /classify_ticket] among the calls, and the
    responses to them among the responses. *)
Fixpoint posts (calls : list Call) : list Request :=
  match calls with
  | [] => []
  | PostClassifyTicket request :: rest => request :: posts rest
  | GetHealth _ :: rest => posts rest
  end.

Fixpoint post_answers (calls : list Call) (responses : list JSONResponse)
  : list JSONResponse :=
  match calls, responses with
  | PostClassifyTicket _ :: rest, response :: others =>
      response :: post_answers rest others
  | GetHealth _ :: rest, _ :: others => post_answers rest others
  | _, _ => []
  end.

Fixpoint health_answers (calls : list Call) (responses : list JSONResponse)
  : list JSONResponse :=
  match calls, responses with
  | GetHealth _ :: rest, response :: others =>
      response :: health_answers rest others
  | PostClassifyTicket _ :: rest, _ :: others => health_answers rest others
  | _, _ => []
  end.

(** The response the general handler gives. *)
Definition unexpected_error : JSONResponse :=
  {| status_code := 500;
     response_content :=
       Some (JObj [("message", JStr "An unexpected error occurred")]) |}.

(** The storage of the limiter is well formed when every key has either
    no entry at all or a counter of at least one together with the time
    its window ends. *)
Definition storage_ok (s : MemoryStorage) : Prop :=
  ∀ key,
    match storage s !! key, expirations s !! key with
    | None, None => True
    | Some n, Some _ => (1 ≤ n)%nat
    | _, _ => False
    end.

(** A request that continues another one: the same model, temperature and
    schema, and a conversation that starts with the conversation of the
    other. *)
Definition continues (c c' : ChatCompletion) : Prop :=
  same_settings c c' ∧ ∃ more, chat_messages c' = (chat_messages c ++ more)%list.

(** A reply that gives the patched client nothing to return: the call
    raised, or its output does not validate against the schema. *)
Definition fruitless (schema : BaseModel) (r : Reply) : Prop :=
  match r with
  | Raises _ => True
  | Returns arguments =>
      ∃ err, model_validate_json schema arguments = inl err
  end.

Module Probes.

(** The refund classification with a member the schema does not
    declare. *)
Definition chatty : json :=
  JObj [("category", JStr "order_issue");
        ("urgency", JStr "high");
        ("sentiment", JStr "frustrated");
        ("confidence", JNum (Finite (9 # 10)));
        ("key_information", JArr [JStr "order #12345"]);
        ("suggested_action", JStr "Trace the shipment and offer a refund");
        ("reasoning", JStr "The customer mentions a missing parcel")].

Definition elaborating : list ChatCompletion → Reply :=
  λ _, Returns (Some chatty).

(** A storage in which the address has used up its window, which ends at
    time 160. *)
Definition exhausted : World :=
  {| records := [];
     calls := [];
     sent := [];
     limiter_storage :=
       {| storage := {[Samples.host := 14%nat]};
          expirations := {[Samples.host := 160%Z]} |} |}.

(** Probes of the health route between the tickets of one address. *)
Definition probed : list Call :=
  [GetHealth "2024-05-01T12:00:00";
   PostClassifyTicket (Samples.ticket_from Samples.host 100);
   GetHealth "2024-05-01T12:00:01.250000";
   PostClassifyTicket (Samples.request Samples.host None Samples.ticket_text 101);
   GetHealth "2024-05-01T12:00:02"].

End Probes.

(** ** Validation *)

Section Validation.

Lemma conforms_enum values v :
  conforms (EnumOf values) v = true → ∃ s, v = JStr s ∧ s ∈ values.
Proof.
  destruct v; try discriminate. simpl. intros H.
  apply bool_decide_eq_true in H. eauto.
Qed.

Lemma conforms_float lo hi v :
  conforms (Float (Some lo) (Some hi)) v = true →
  ∃ q, v = JNum (Finite q) ∧ (lo <= q)%Q ∧ (q <= hi)%Q.
Proof.
  destruct v as [| |x| | |]; try discriminate. simpl.
  intros [Hlo Hhi]%andb_true_iff.
  destruct x as [q| | |]; try discriminate.
  exists q. split; [done|]. split; by apply Qle_bool_iff.
Qed.

Lemma conforms_str lo hi v :
  conforms (Str lo hi) v = true →
  ∃ s, v = JStr s ∧ at_least lo (String.length s) = true
       ∧ at_most hi (String.length s) = true.
Proof.
  destruct v; try discriminate. simpl.
  intros [? ?]%andb_true_iff. eauto.
Qed.

Lemma all_strings items :
  forallb is_str items = true → ∃ l, items = JStr <$> l.
Proof.
  induction items as [|v items IH]; simpl.
  - by exists [].
  - intros [Hv Hrest]%andb_true_iff.
    destruct v; try discriminate.
    destruct (IH Hrest) as [l ->]. by exists (s :: l).
Qed.

Lemma conforms_list v :
  conforms ListOfStr v = true → ∃ l, v = JArr (JStr <$> l).
Proof.
  destruct v; try discriminate. simpl. intros H.
  destruct (all_strings _ H) as [l ->]. eauto.
Qed.

Lemma field_ok_inv ms name a :
  field_ok ms (name, a) = true →
  ∃ v, member name ms = Some v ∧ conforms a v = true
       ∧ field_value ms (name, a) = (name, v).
Proof.
  unfold field_ok, field_value. simpl.
  destruct (member name ms) as [v|]; [|discriminate]. eauto.
Qed.

(** A value validates only when it is an object all of whose declared
    fields conform, and the instance holds exactly those fields. *)
Lemma model_validate_inr m v obj :
  model_validate m v = inr obj →
  ∃ ms, v = JObj ms
        ∧ obj = field_value ms <$> model_fields m
        ∧ Forall (λ f, field_ok ms f = true) (model_fields m).
Proof.
  destruct v as [| | | | |ms]; try discriminate. simpl.
  destruct (filter _ _) eqn:Hbad; [|discriminate].
  intros [= <-]. exists ms. split; [done|]. split; [done|].
  apply Forall_forall. intros f Hf.
  destruct (field_ok ms f) eqn:Hok; [done|].
  exfalso. by eapply (filter_nil_not_elem_of _ _ f Hbad).
Qed.

Lemma model_validate_ok m ms :
  Forall (λ f, field_ok ms f = true) (model_fields m) →
  model_validate m (JObj ms) = inr (field_value ms <$> model_fields m).
Proof.
  intros Hall. simpl.
  replace (filter _ (model_fields m)) with (@nil (string * annotation)); [done|].
  symmetry. induction Hall as [|f fs Hf _ IH]; [done|].
  rewrite filter_cons. rewrite decide_False; [done|]. by rewrite Hf.
Qed.

Lemma category_member s :
  s ∈ TicketCategory_value <$> TicketCategory_members →
  ∃ c, s = TicketCategory_value c.
Proof. intros (c & -> & _)%list_elem_of_fmap. eauto. Qed.

Lemma urgency_member s :
  s ∈ TicketUrgency_value <$> TicketUrgency_members →
  ∃ u, s = TicketUrgency_value u.
Proof. intros (u & -> & _)%list_elem_of_fmap. eauto. Qed.

Lemma sentiment_member s :
  s ∈ CustomerSentiment_value <$> CustomerSentiment_members →
  ∃ c, s = CustomerSentiment_value c.
Proof. intros (c & -> & _)%list_elem_of_fmap. eauto. Qed.

(** Whatever validates against [TicketClassification] meets the field
    constraints. *)
Lemma TicketClassification_validated v obj :
  model_validate TicketClassification v = inr obj →
  is_classification (model_dump obj).
Proof.
  intros (ms & -> & -> & Hall)%model_validate_inr.
  cbn [TicketClassification model_fields] in *.
  repeat match goal with
         | H : Forall _ (_ :: _) |- _ => apply Forall_cons in H as [?%field_ok_inv H]
         end.
  repeat match goal with
         | H : ∃ v, _ ∧ _ ∧ _ |- _ => destruct H as (? & _ & ? & ?)
         end.
  repeat match goal with
         | H : conforms (EnumOf _) _ = true |- _ =>
             apply conforms_enum in H as (? & -> & H)
         | H : conforms (Float _ _) _ = true |- _ =>
             apply conforms_float in H as (? & -> & ? & ?)
         | H : conforms ListOfStr _ = true |- _ =>
             apply conforms_list in H as (? & ->)
         | H : conforms (Str _ _) _ = true |- _ =>
             apply conforms_str in H as (? & -> & _ & _)
         end.
  repeat match goal with
         | H : _ ∈ TicketCategory_value <$> _ |- _ => apply category_member in H as [? ->]
         | H : _ ∈ TicketUrgency_value <$> _ |- _ => apply urgency_member in H as [? ->]
         | H : _ ∈ CustomerSentiment_value <$> _ |- _ => apply sentiment_member in H as [? ->]
         end.
  unfold is_classification, model_dump. cbn [fmap list_fmap].
  repeat match goal with H : field_value _ _ = _ |- _ => rewrite H; clear H end.
  do 6 eexists. split; [reflexivity|]. split; assumption.
Qed.

Lemma TicketRequest_validates ms text :
  member "text" ms = Some (JStr text) →
  (10 ≤ String.length text)%nat → (String.length text ≤ 1000)%nat →
  model_validate TicketRequest (JObj ms) = inr [("text", JStr text)].
Proof.
  intros Hm Hlo Hhi.
  rewrite model_validate_ok; unfold TicketRequest; cbn [model_fields].
  - cbn [fmap list_fmap]. unfold field_value. cbn [fst]. by rewrite Hm.
  - constructor; [|constructor].
    unfold field_ok. cbn [fst snd]. rewrite Hm.
    unfold conforms, at_least, at_most.
    apply andb_true_iff. split; by apply Nat.leb_le.
Qed.

Lemma TicketRequest_rejects ms text :
  member "text" ms = Some (JStr text) →
  ¬ (10 ≤ String.length text ≤ 1000)%nat →
  model_validate TicketRequest (JObj ms) = inl (FieldErrors ["text"]).
Proof.
  intros Hm Hout.
  unfold model_validate, TicketRequest. cbn [model_fields].
  rewrite filter_cons, decide_True; [done|].
  unfold field_ok. cbn [fst snd]. rewrite Hm.
  unfold conforms, at_least, at_most.
  apply andb_false_iff.
  destruct (decide (10 ≤ String.length text)%nat).
  - right. apply Nat.leb_gt. lia.
  - left. apply Nat.leb_gt. lia.
Qed.

End Validation.

(** ** The model client *)

Section ClientProperties.

Context {runtime : Runtime}.

Variable provider : list ChatCompletion → Reply.
Variable reask_messages : option json → ValidationError → list Message.
Variable describe : ValidationError → string.

Abbreviation attempt := (Instructor.attempt provider reask_messages describe).
Abbreviation retry_sync := (Instructor.retry_sync provider reask_messages describe).
Abbreviation create := (Instructor.create provider reask_messages describe).

Lemma sending_sending cs cs' w :
  sending cs' (sending cs w) = sending (cs ++ cs') w.
Proof. unfold sending. simpl. by rewrite app_assoc. Qed.

Lemma same_settings_refl c : same_settings c c.
Proof. by unfold same_settings. Qed.

Lemma same_settings_trans c1 c2 c3 :
  same_settings c1 c2 → same_settings c2 c3 → same_settings c1 c3.
Proof. unfold same_settings. intros (? & ? & ?) (? & ? & ?). split_and!; congruence. Qed.

(** An attempt sends one request: it comes back with a validated
    instance, or with an exception and the next request, or it raises. *)
Lemma attempt_spec c w :
  ∃ r, attempt c w = (r, sending [c] w)
       ∧ match r with
         | inr (inr obj) => ∃ out, model_validate_json (chat_tool c) out = inr obj
         | inr (inl (e, c')) => same_settings c c'
         | inl _ => True
         end.
Proof.
  unfold Instructor.attempt, try_except, Instructor.post, mbind, M_bind, mret, M_ret.
  fold (sending [c] w).
  destruct (provider _) as [e|out].
  - destruct (retried e).
    + exists (inr (inl (e, c))). split; [done|]. apply same_settings_refl.
    + by exists (inl e).
  - destruct (model_validate_json (chat_tool c) out) as [err|obj] eqn:Hv.
    + eexists (inr (inl (_, _))). split; [reflexivity|]. by unfold same_settings.
    + exists (inr (inr obj)). split; [done|]. eauto.
Qed.

(** The retry loop sends at least one request and at most one more than
    its budget, all with the model, temperature and schema of the first;
    it touches nothing else; what it returns has been validated against
    the schema. *)
Lemma retry_sync_spec more c w :
  ∃ r cs, retry_sync more c w = (r, sending (c :: cs) w)
          ∧ (length cs ≤ more)%nat
          ∧ Forall (same_settings c) cs
          ∧ match r with
            | inr obj => ∃ out, model_validate_json (chat_tool c) out = inr obj
            | inl _ => True
            end.
Proof.
  revert c w. induction more as [|n IH]; intros c w;
    destruct (attempt_spec c w) as ([e0|[[e c']|obj]] & Hrun & Hr);
    cbn [Instructor.retry_sync]; unfold mbind, M_bind; rewrite Hrun.
  - exists (inl e0), []. by repeat split.
  - exists (inl (Instructor.InstructorRetryException e)), []. by repeat split.
  - exists (inr obj), []. by repeat split.
  - exists (inl e0), []. repeat split; [simpl; lia|done..].
  - destruct (IH c' (sending [c] w)) as (r & cs & Hrec & Hlen & Hall & Hres).
    exists r, (c' :: cs). rewrite Hrec, sending_sending. split; [done|].
    split; [simpl; lia|]. split.
    + constructor; [done|].
      eapply Forall_impl; [exact Hall|]. intros c''. by apply same_settings_trans.
    + destruct r; [done|]. destruct Hr as (_ & _ & <-). exact Hres.
  - exists (inr obj), []. repeat split; [simpl; lia|done..].
Qed.

Lemma create_spec args w :
  ∃ r cs, create args w = (r, sending (first_completion args :: cs) (calling args w))
          ∧ (length cs ≤ further_attempts (max_retries args))%nat
          ∧ Forall (same_settings (first_completion args)) cs
          ∧ match r with
            | inr obj =>
                ∃ out, model_validate_json (response_model args) out = inr obj
            | inl _ => True
            end.
Proof.
  unfold Instructor.create. fold (calling args w). fold (first_completion args).
  apply retry_sync_spec.
Qed.

End ClientProperties.

(** ** The classification pipeline *)

Section PipelineProperties.

Context {runtime : Runtime}.

Variable provider : list ChatCompletion → Reply.
Variable reask_messages : option json → ValidationError → list Message.
Variable describe : ValidationError → string.

Abbreviation create := (Instructor.create provider reask_messages describe).
Abbreviation classify := (classify_ticket provider reask_messages describe).

(** [classify_ticket] is the call on the client with its two exits. *)
Lemma classify_ticket_unfold text w :
  classify text w =
    match create (classification_call text) w with
    | (inr obj, w') => (inr obj, w')
    | (inl e, w') =>
        (inl (HTTPException 500 "Error classifying ticket"),
         logged ERROR ("Error classifying ticket: " ++ exc_str e) w')
    end.
Proof.
  unfold classify_ticket, client_chat_completions_create, try_except.
  fold (classification_call text).
  destruct (create (classification_call text) w) as [[e|obj] w']; reflexivity.
Qed.

(** What the client returns for the call of [classify_ticket] has been
    validated against [TicketClassification]. *)
Lemma create_returns_valid text w obj w' :
  create (classification_call text) w = (inr obj, w') →
  is_classification (model_dump obj).
Proof.
  destruct (create_spec provider reask_messages describe (classification_call text) w)
    as (r & cs & -> & _ & _ & Hr).
  intros [= -> _].
  destruct Hr as [[v|] Hv]; [|discriminate].
  by apply TicketClassification_validated in Hv.
Qed.

(** C1. Every classification that [classify_ticket] returns meets all the
    field constraints of the data model: the six fields are there, the
    category, the urgency and the sentiment are values of members of
    their enums, the confidence lies between 0 and 1, the key information
    is a list of strings and the suggested action a string. *)
Theorem classify_ticket_returns_valid text w obj w' :
  classify text w = (inr obj, w') →
  is_classification (model_dump obj).
Proof.
  rewrite classify_ticket_unfold.
  destruct (create (classification_call text) w) as [[e|obj'] w1] eqn:Hcreate;
    [discriminate|].
  intros [= <- <-]. by eapply create_returns_valid.
Qed.

(** C8. A call [classify_ticket text] calls the model client once, with
    temperature 0, [TicketClassification] as the response model, a retry
    budget of 3 and the conversation made of the system prompt followed
    by the ticket text as the user message; the client then sends one
    request with that conversation and after it no more than the runtime
    grants for that budget, all of them with that model, temperature and
    schema. *)
Theorem classify_ticket_call text w :
  calls (classify text w).2 = (calls w ++ [classification_call text])%list
  ∧ temperature (classification_call text) = 0%Z
  ∧ response_model (classification_call text) = TicketClassification
  ∧ max_retries (classification_call text) = 3%nat
  ∧ messages (classification_call text)
    = [{| role := "system"; content := SYSTEM_PROMPT |};
       {| role := "user"; content := text |}]
  ∧ ∃ cs, sent (classify text w).2
          = (sent w ++ first_completion (classification_call text) :: cs)%list
          ∧ (length cs ≤ further_attempts 3)%nat
          ∧ Forall (same_settings (first_completion (classification_call text))) cs.
Proof.
  rewrite classify_ticket_unfold.
  destruct (create_spec provider reask_messages describe (classification_call text) w)
    as (r & cs & -> & Hlen & Hall & _).
  split_and!; try reflexivity.
  - by destruct r.
  - exists cs. split_and!; [by destruct r|exact Hlen|exact Hall].
Qed.

End PipelineProperties.

Section FailureProperties.

Context {runtime : Runtime}.

Variable provider : list ChatCompletion → Reply.
Variable reask_messages : option json → ValidationError → list Message.
Variable describe : ValidationError → string.

Abbreviation create := (Instructor.create provider reask_messages describe).
Abbreviation classify := (classify_ticket provider reask_messages describe).

(** What the application answers to the exceptions of the route. *)
Lemma respond_http_403 request w :
  respond (app_exception_handlers describe) request
    (HTTPException 403 "Could not validate API key") w = (forbidden, w).
Proof. reflexivity. Qed.

Lemma respond_http_500 request w :
  respond (app_exception_handlers describe) request
    (HTTPException 500 "Error classifying ticket") w = (classification_failed, w).
Proof. reflexivity. Qed.

Lemma respond_rate_limit request w :
  respond (app_exception_handlers describe) request
    (RateLimitExceeded Limits.ten_per_minute) w = (too_many_requests, w).
Proof. reflexivity. Qed.

Lemma respond_validation request err w :
  respond (app_exception_handlers describe) request
    (RequestValidationError err) w = (unprocessable err, w).
Proof. reflexivity. Qed.

(** C7. Whenever the call on the model client raises, be it because the
    retry budget is spent or for any other reason, [classify_ticket]
    raises the HTTP exception with status 500 and the fixed detail; the
    text of the original exception goes to the log, and the response the
    application makes of the HTTP exception is the fixed 500 response,
    in which nothing of the original exception figures. *)
Theorem classify_ticket_failure text w e w1 :
  create (classification_call text) w = (inl e, w1) →
  classify text w
  = (inl (HTTPException 500 "Error classifying ticket"),
     logged ERROR ("Error classifying ticket: " ++ exc_str e) w1)
  ∧ ∀ request w2,
      respond (app_exception_handlers describe) request
        (HTTPException 500 "Error classifying ticket") w2
      = (classification_failed, w2).
Proof.
  intros Hfail. split.
  - by rewrite classify_ticket_unfold, Hfail.
  - intros. apply respond_http_500.
Qed.

End FailureProperties.

(** C10. Two runs of [classify_ticket] in which the model client raises,
    whatever the two exceptions, the two tickets, the two states, the two
    completion APIs and the two runtimes, show the caller the same thing: the HTTP
    exception with status 500 and the detail "Error classifying ticket". *)
Theorem model_failures_indistinguishable
  (runtime1 runtime2 : Runtime)
  (provider1 provider2 : list ChatCompletion → Reply)
  (reask1 reask2 : option json → ValidationError → list Message)
  (describe1 describe2 : ValidationError → string)
  (text1 text2 : string) (w1 w2 w1' w2' : World) (e1 e2 : Exception) :
  Instructor.create (runtime := runtime1) provider1 reask1 describe1
    (classification_call text1) w1
  = (inl e1, w1') →
  Instructor.create (runtime := runtime2) provider2 reask2 describe2
    (classification_call text2) w2
  = (inl e2, w2') →
  (classify_ticket (runtime := runtime1) provider1 reask1 describe1 text1 w1).1
  = (classify_ticket (runtime := runtime2) provider2 reask2 describe2 text2 w2).1
  ∧ (classify_ticket (runtime := runtime1) provider1 reask1 describe1 text1 w1).1
    = inl (HTTPException 500 "Error classifying ticket").
Proof.
  intros H1 H2. by rewrite !classify_ticket_unfold, H1, H2.
Qed.

(** ** The route *)

Section RouteProperties.

Context {runtime : Runtime}.

Variable settings : Config.Settings.
Variable provider : list ChatCompletion → Reply.
Variable reask_messages : option json → ValidationError → list Message.
Variable describe : ValidationError → string.

Abbreviation create := (Instructor.create provider reask_messages describe).
Abbreviation classify := (classify_ticket provider reask_messages describe).
Abbreviation post :=
  (post_classify_ticket settings provider reask_messages describe).
Abbreviation arrive := (receive settings provider reask_messages describe).

Lemma TicketRequest_validated v ticket :
  model_validate TicketRequest v = inr ticket →
  ∃ text, ticket = [("text", JStr text)]
          ∧ (10 ≤ String.length text ≤ 1000)%nat.
Proof.
  intros (ms & -> & -> & Hall)%model_validate_inr.
  unfold TicketRequest in *. cbn [model_fields] in *.
  apply Forall_cons in Hall as [(v & _ & Hv & Hval)%field_ok_inv _].
  apply conforms_str in Hv as (text & -> & Hlo & Hhi).
  unfold at_least in Hlo. unfold at_most in Hhi.
  apply Nat.leb_le in Hlo, Hhi.
  exists text. cbn [fmap list_fmap]. rewrite Hval. by split.
Qed.

Lemma enum_conforms {A} (value : A → string) (members : list A) (x : A) :
  x ∈ members → conforms (EnumOf (value <$> members)) (JStr (value x)) = true.
Proof.
  intros Hx. simpl. apply bool_decide_eq_true.
  apply list_elem_of_fmap. eauto.
Qed.

Lemma strings_conform l : conforms ListOfStr (JArr (JStr <$> l)) = true.
Proof. simpl. induction l as [|s l IH]; [done|]. exact IH. Qed.

Lemma TicketCategory_of_value_value c :
  TicketCategory_of_value (TicketCategory_value c) = Some c.
Proof. by destruct c. Qed.

(** An instance that meets the field constraints validates to itself. *)
Lemma classification_revalidates obj :
  is_classification (model_dump obj) →
  model_validate TicketClassification (model_dump obj) = inr obj
  ∧ ∃ c, member "category" obj = Some (JStr (TicketCategory_value c)).
Proof.
  intros (c & u & s & q & l & a & [= ->] & Hlo & Hhi). split; [|by exists c].
  unfold model_dump. rewrite model_validate_ok; [reflexivity|].
  unfold TicketClassification. cbn [model_fields].
  repeat constructor; unfold field_ok; cbn [fst snd member];
    repeat (rewrite decide_False by discriminate);
    rewrite ?decide_True by reflexivity.
  - apply enum_conforms. destruct c; set_solver.
  - apply enum_conforms. destruct u; set_solver.
  - apply enum_conforms. destruct s; set_solver.
  - simpl. apply andb_true_iff. split; by apply Qle_bool_iff.
  - apply strings_conform.
Qed.

(** A request with another key, or with none, stops at the dependency:
    the answer is 403 and the state is left as it was. *)
Lemma post_forbidden request w :
  x_api_key request ≠ Some (Config.api_key settings) →
  post request w = (forbidden, w).
Proof.
  intros Hkey.
  unfold post_classify_ticket, route_classify_ticket, authenticate_api_key,
    mbind, M_bind, raise.
  by rewrite decide_True.
Qed.

(** A request with the right key whose body does not validate stops at
    the body parameter: the answer is 422 and the state is left as it
    was. *)
Lemma post_unprocessable request err w :
  x_api_key request = Some (Config.api_key settings) →
  model_validate TicketRequest (body request) = inl err →
  post request w = (unprocessable err, w).
Proof.
  intros Hkey Hbody.
  unfold post_classify_ticket, route_classify_ticket, authenticate_api_key,
    request_body, mbind, M_bind, mret, M_ret, raise.
  rewrite decide_False by (by intros []).
  by rewrite Hbody.
Qed.

(** A request with the right key and a valid body reaches the decorated
    endpoint: the limiter counts it, and only when it is within the limit
    does the classification run. *)
Lemma post_admitted request ticket w :
  x_api_key request = Some (Config.api_key settings) →
  model_validate TicketRequest (body request) = inr ticket →
  ∃ text,
    ticket = [("text", JStr text)]
    ∧ (10 ≤ String.length text ≤ 1000)%nat
    ∧ post request w =
        match Limits.hit Limits.ten_per_minute (SlowAPI.get_remote_address request)
                (now request) (limiter_storage w) with
        | (false, s') => (too_many_requests, limited s' w)
        | (true, s') =>
            match create (classification_call text) (limited s' w) with
            | (inl e, w2) =>
                (classification_failed,
                 logged ERROR ("Error classifying ticket: " ++ exc_str e) w2)
            | (inr obj, w2) =>
                ({| status_code := 200; response_content := Some (model_dump obj) |},
                 logged INFO
                   ("Ticket classified: " ++ format_category (held_category obj)) w2)
            end
        end.
Proof.
  intros Hkey Hbody.
  destruct (TicketRequest_validated _ _ Hbody) as (text & -> & Hlen).
  exists text. split; [done|]. split; [done|].
  unfold post_classify_ticket, route_classify_ticket, authenticate_api_key,
    request_body, SlowAPI.limit, SlowAPI.check_request_limit,
    mbind, M_bind, mret, M_ret, raise.
  rewrite decide_False by (by intros []).
  rewrite Hbody.
  destruct (Limits.hit _ _ _ _) as [[|] s']; fold (limited s' w); [|reflexivity].
  unfold api_classify_ticket, mbind, M_bind, mret, M_ret.
  change (getattr_str [("text", JStr text)] "text" (limited s' w))
    with (@inr exn string text, limited s' w).
  cbv beta iota. rewrite classify_ticket_unfold.
  destruct (create (classification_call text) (limited s' w)) as [[e|obj] w2] eqn:Hc;
    [reflexivity|].
  apply create_returns_valid in Hc.
  destruct (classification_revalidates obj Hc) as (Hre & c & Hcat).
  unfold getattr_category, held_category, category_of, serialize_response,
    logger_info, emit.
  rewrite Hcat, TicketCategory_of_value_value. unfold mret, M_ret, raise.
  cbn [default].
  fold (logged INFO ("Ticket classified: " ++ format_category c) w2).
  by rewrite Hre.
Qed.

(** Only a classification that meets the field constraints is answered
    with status 200. *)
Lemma ok_response_is_classification request w :
  status_code (post request w).1 = 200%Z →
  ∃ v, response_content (post request w).1 = Some v ∧ is_classification v.
Proof.
  destruct (decide (x_api_key request = Some (Config.api_key settings)))
    as [Hkey|Hkey]; [|by rewrite post_forbidden].
  destruct (model_validate TicketRequest (body request)) as [err|ticket] eqn:Hbody;
    [by rewrite (post_unprocessable request err)|].
  destruct (post_admitted request ticket w Hkey Hbody) as (text & _ & _ & ->).
  destruct (Limits.hit _ _ _ _) as [[|] s']; [|done].
  destruct (create (classification_call text) (limited s' w)) as [[e|obj] w2] eqn:Hc;
    [done|].
  intros _. exists (model_dump obj). split; [done|].
  by eapply create_returns_valid.
Qed.

(** *** The limiter *)

(** A hit on a key that has no live window opens one: the counter is 1
    and the window ends [expiry] seconds later. *)
Lemma incr_fresh key expiry t s :
  (window_end s key ≤ t)%Z →
  Limits.incr key expiry t s
  = (1%nat, {| storage := <[key := 1%nat]> (delete key (storage s));
               expirations := <[key := (t + expiry)%Z]> (delete key (expirations s)) |}).
Proof.
  intros Hend. unfold Limits.incr, Limits.get.
  fold (window_end s key). rewrite decide_True by done. cbn [storage expirations].
  rewrite lookup_delete_eq. cbn [default]. by rewrite decide_True.
Qed.

(** A hit inside a live window adds one to the counter and leaves the end
    of the window where it is. *)
Lemma incr_live key expiry t s n :
  (t < window_end s key)%Z →
  storage s !! key = Some (S n) →
  Limits.incr key expiry t s
  = (S (S n), {| storage := <[key := S (S n)]> (storage s);
                 expirations := expirations s |}).
Proof.
  intros Hend Hn. unfold Limits.incr, Limits.get.
  fold (window_end s key). rewrite decide_False by lia.
  rewrite Hn. cbn [default]. unfold id.
  replace (S n + 1)%nat with (S (S n)) by lia.
  cbv zeta. by rewrite decide_False by lia.
Qed.

(** Whatever the state of the window, a hit adds at most one to the
    counter of its key and leaves the other counters alone. *)
Lemma incr_counter key expiry t s :
  ((Limits.incr key expiry t s).1 ≤ counter s key + 1)%nat
  ∧ counter (Limits.incr key expiry t s).2 key = (Limits.incr key expiry t s).1
  ∧ ∀ key', key' ≠ key →
      (counter (Limits.incr key expiry t s).2 key' ≤ counter s key')%nat.
Proof.
  unfold Limits.incr, Limits.get, counter. case_decide; cbn [storage expirations fst snd].
  - rewrite lookup_delete_eq. cbn [default]. split_and!.
    + lia.
    + by rewrite lookup_insert_eq.
    + intros key' Hne. rewrite lookup_insert_ne, lookup_delete_ne by done. lia.
  - split_and!.
    + lia.
    + by rewrite lookup_insert_eq.
    + intros key' Hne. rewrite lookup_insert_ne by done. lia.
Qed.

Lemma hit_incr item key t s :
  Limits.hit item key t s
  = (((Limits.incr key (expiry item) t s).1 <=? amount item)%nat,
     (Limits.incr key (expiry item) t s).2).
Proof. unfold Limits.hit. by destruct (Limits.incr _ _ _ _). Qed.

(** The limiter counts every admissible request; it is the outcome of
    the hit that decides between the 429 response, which leaves the model
    client alone, and the classification. *)
Lemma post_admissible request w :
  admissible settings request →
  let h := Limits.hit Limits.ten_per_minute (SlowAPI.get_remote_address request)
             (now request) (limiter_storage w) in
  limiter_storage (post request w).2 = h.2
  ∧ (h.1 = false →
     (post request w).1 = too_many_requests
     ∧ calls (post request w).2 = calls w
     ∧ sent (post request w).2 = sent w)
  ∧ (h.1 = true →
     status_code (post request w).1 ≠ 429%Z
     ∧ length (calls (post request w).2) = S (length (calls w))).
Proof.
  intros (Hkey & ticket & Hbody).
  destruct (post_admitted request ticket w Hkey Hbody) as (text & _ & _ & ->).
  destruct (Limits.hit _ _ _ _) as [[|] s']; cbn [fst snd].
  - destruct (create_spec provider reask_messages describe
                (classification_call text) (limited s' w))
      as (r & cs & -> & _).
    destruct r as [e|obj]; cbn [fst snd]; (split; [done|]);
      (split; [done|]); intros _; (split; [done|]);
      cbn [logged sending calling limited calls]; rewrite length_app; cbn [length]; lia.
  - split; [done|]. split; [done|]. done.
Qed.

Lemma serve_cons request rest w :
  serve settings provider reask_messages describe (request :: rest) w
  = ((post request w).1
       :: (serve settings provider reask_messages describe rest (post request w).2).1,
     (serve settings provider reask_messages describe rest (post request w).2).2).
Proof.
  cbn [serve]. destruct (post request w) as [resp w1]. cbn [fst snd].
  by destruct (serve _ _ _ _ rest w1).
Qed.

Abbreviation serve_all := (serve settings provider reask_messages describe).

Lemma admissibleb_true request :
  admissibleb settings request = true ↔ admissible settings request.
Proof.
  unfold admissibleb, admissible. rewrite andb_true_iff, bool_decide_eq_true.
  destruct (model_validate TicketRequest (body request)) as [err|ticket].
  - split; [by intros [_ [=]]|by intros [_ [ticket [=]]]].
  - split; intros [Hkey _]; eauto.
Qed.

Lemma counted_true key request :
  counted settings key request = true
  ↔ admissible settings request ∧ SlowAPI.get_remote_address request = key.
Proof.
  unfold counted.
  by rewrite andb_true_iff, bool_decide_eq_true, admissibleb_true.
Qed.

(** A request that is not admissible is answered 403 or 422 and leaves
    the state as it was. *)
Lemma post_not_admissible request w :
  admissibleb settings request = false →
  (post request w).2 = w ∧ status_code (post request w).1 ≠ 429%Z.
Proof.
  unfold admissibleb. intros [Hkey|Hbody]%andb_false_iff.
  - apply bool_decide_eq_false in Hkey. by rewrite post_forbidden.
  - destruct (decide (x_api_key request = Some (Config.api_key settings)))
      as [Hkey|Hkey]; [|by rewrite post_forbidden].
    destruct (model_validate TicketRequest (body request)) as [err|ticket] eqn:Hv;
      [|discriminate].
    by rewrite (post_unprocessable request err).
Qed.

(** A hit on one key leaves the entries of the other keys alone. *)
Lemma incr_other key key' expiry t s :
  key' ≠ key →
  storage (Limits.incr key expiry t s).2 !! key' = storage s !! key'
  ∧ expirations (Limits.incr key expiry t s).2 !! key' = expirations s !! key'.
Proof.
  intros Hne. unfold Limits.incr, Limits.get.
  repeat case_decide; cbn [storage expirations snd];
    by rewrite ?lookup_insert_ne, ?lookup_delete_ne by done.
Qed.

(** A request that does not count against a key leaves the window of the
    key as it is. *)
Lemma post_keeps_window key request w :
  counted settings key request = false →
  storage (limiter_storage (post request w).2) !! key
  = storage (limiter_storage w) !! key
  ∧ expirations (limiter_storage (post request w).2) !! key
    = expirations (limiter_storage w) !! key.
Proof.
  unfold counted. intros [Hadm|Hkey]%andb_false_iff.
  - by destruct (post_not_admissible request w Hadm) as [-> _].
  - apply bool_decide_eq_false in Hkey.
    destruct (admissibleb settings request) eqn:Hadm.
    + apply admissibleb_true in Hadm.
      destruct (post_admissible request w Hadm) as (-> & _).
      rewrite hit_incr. cbn [snd]. apply incr_other. congruence.
    + by destruct (post_not_admissible request w Hadm) as [-> _].
Qed.

Lemma answers_to_cons key r rest resp resps :
  answers_to settings key (r :: rest) (resp :: resps)
  = if counted settings key r
    then resp :: answers_to settings key rest resps
    else answers_to settings key rest resps.
Proof.
  unfold answers_to. cbn [zip zip_with]. rewrite filter_cons. cbn [fst].
  destruct (counted settings key r); [by rewrite decide_True|by rewrite decide_False].
Qed.

(** Inside a live window that has counted [S n] hits, the next [9 - n]
    requests that count against the key pass the limiter and all later
    ones are answered 429, whatever other requests come in between. *)
Lemma serve_live_window key window_ends requests : ∀ w n,
  Forall (λ r, counted settings key r = true → (now r < window_ends)%Z) requests →
  storage (limiter_storage w) !! key = Some (S n) →
  expirations (limiter_storage w) !! key = Some window_ends →
  Forall (λ resp, status_code resp ≠ 429%Z)
    (take (9 - n) (answers_to settings key requests (serve_all requests w).1))
  ∧ Forall (λ resp, resp = too_many_requests)
      (drop (9 - n) (answers_to settings key requests (serve_all requests w).1)).
Proof.
  induction requests as [|r rest IH]; intros w n Hall Hcount Hend.
  { cbn. rewrite take_nil, drop_nil. by split. }
  apply Forall_cons in Hall as [Hnow Hrest].
  rewrite serve_cons. cbn [fst snd]. rewrite answers_to_cons.
  destruct (counted settings key r) eqn:Hc.
  - specialize (Hnow eq_refl). apply counted_true in Hc as [Hadm Hkey].
    destruct (post_admissible r w Hadm) as (Hstore & Hover & Hunder).
    rewrite hit_incr, Hkey in Hstore, Hover, Hunder. cbn [fst snd] in *.
    assert (Hincr := incr_live key (expiry Limits.ten_per_minute) (now r)
                       (limiter_storage w) n).
    rewrite Hincr in Hstore, Hover, Hunder;
      try first [exact Hcount|unfold window_end; rewrite Hend; exact Hnow].
    clear Hincr. cbn [fst snd Limits.ten_per_minute amount] in *.
    destruct (IH (post r w).2 (S n) Hrest) as (Htake & Hdrop).
    { rewrite Hstore. cbn [storage]. apply lookup_insert_eq. }
    { rewrite Hstore. cbn [expirations]. exact Hend. }
    destruct (decide (n ≤ 8)%nat) as [Hn|Hn].
    + destruct Hunder as [Hstatus _]; [apply Nat.leb_le; lia|].
      replace (9 - n)%nat with (S (9 - S n)) by lia.
      rewrite firstn_cons, skipn_cons. split; [by constructor|exact Hdrop].
    + destruct Hover as (Hresp & _); [apply Nat.leb_gt; lia|].
      replace (9 - n)%nat with 0%nat in * by lia.
      replace (9 - S n)%nat with 0%nat in * by lia.
      rewrite take_0, drop_0 in *. split; [constructor|by constructor].
  - destruct (post_keeps_window key r w Hc) as [Hs He].
    apply (IH (post r w).2 n Hrest); congruence.
Qed.

Lemma requests_from_cons key r rest :
  requests_from settings key (r :: rest)
  = ((if counted settings key r then 1 else 0)
     + requests_from settings key rest)%nat.
Proof.
  unfold requests_from. rewrite filter_cons.
  destruct (counted settings key r); [by rewrite decide_True|by rewrite decide_False].
Qed.

(** As long as no address sends more requests that count than its counter
    leaves room for, no request is answered 429. *)
Lemma serve_within_quota requests : ∀ w,
  Forall (λ r, (counter (limiter_storage w) (SlowAPI.get_remote_address r)
                + requests_from settings (SlowAPI.get_remote_address r) requests
                ≤ 10)%nat)
    requests →
  Forall (λ resp, status_code resp ≠ 429%Z) (serve_all requests w).1.
Proof.
  induction requests as [|r rest IH]; intros w Hroom; [by constructor|].
  apply Forall_cons in Hroom as [Hroom_r Hroom].
  rewrite serve_cons. cbn [fst snd].
  destruct (admissibleb settings r) eqn:Hadm.
  - apply admissibleb_true in Hadm.
    destruct (post_admissible r w Hadm) as (Hstore & _ & Hunder).
    rewrite hit_incr in Hstore, Hunder. cbn [fst snd] in *.
    destruct (incr_counter (SlowAPI.get_remote_address r)
                (expiry Limits.ten_per_minute) (now r) (limiter_storage w))
      as (Hle & Hself & Hother).
    assert (Hcounted : counted settings (SlowAPI.get_remote_address r) r = true)
      by by apply counted_true.
    rewrite requests_from_cons, Hcounted in Hroom_r.
    constructor.
    + apply Hunder. apply Nat.leb_le. cbn [Limits.ten_per_minute amount]. lia.
    + apply IH. eapply Forall_impl; [exact Hroom|]. intros r' Hr'. cbn beta in Hr'.
      rewrite requests_from_cons in Hr'. rewrite Hstore.
      destruct (decide (SlowAPI.get_remote_address r = SlowAPI.get_remote_address r'))
        as [Heq|Hne].
      * rewrite <- Heq in *. rewrite Hcounted in Hr'. rewrite Hself. lia.
      * specialize (Hother (SlowAPI.get_remote_address r') (not_eq_sym Hne)).
        destruct (counted settings (SlowAPI.get_remote_address r') r); lia.
  - destruct (post_not_admissible r w Hadm) as [Hw Hstatus].
    constructor; [exact Hstatus|].
    apply IH. rewrite Hw. eapply Forall_impl; [exact Hroom|].
    intros r' Hr'. cbn beta in Hr'. rewrite requests_from_cons in Hr'.
    unfold counted in Hr' at 1. rewrite Hadm in Hr'. exact Hr'.
Qed.

(** A request that is answered 429 has caused no call on the model
    client and no request to the completion API. *)
Lemma rejected_before_pipeline request w :
  status_code (post request w).1 = 429%Z →
  calls (post request w).2 = calls w ∧ sent (post request w).2 = sent w.
Proof.
  intros Hstatus. destruct (admissibleb settings request) eqn:Hadm.
  - apply admissibleb_true in Hadm.
    destruct (post_admissible request w Hadm) as (_ & Hover & Hunder).
    destruct (Limits.hit _ _ _ _) as [[|] s']; cbn [fst] in *.
    + by destruct Hunder.
    + by destruct Hover as (_ & ? & ?).
  - by destruct (post_not_admissible request w Hadm).
Qed.

(** *** The API key *)

(** C3. The authenticator succeeds exactly when the credential it is
    given is the configured key; it then returns the credential as it
    got it.  For any other credential, and for none, it raises the HTTP
    exception with status 403 and the fixed detail, in which neither the
    credential nor the key figures.  Either way the state is left as it
    was. *)
Theorem authenticate_api_key_spec credential w :
  ((∃ v, (authenticate_api_key settings credential w).1 = inr v)
   ↔ credential = Some (Config.api_key settings))
  ∧ (credential = Some (Config.api_key settings) →
     authenticate_api_key settings credential w = (inr credential, w))
  ∧ (credential ≠ Some (Config.api_key settings) →
     authenticate_api_key settings credential w
     = (inl (HTTPException 403 "Could not validate API key"), w)).
Proof.
  unfold authenticate_api_key. split_and!.
  - case_decide as Hc; cbn; split.
    + by intros [v [=]].
    + done.
    + intros _. exact Hc.
    + eauto.
  - intros ->. by rewrite decide_False by (by intros []).
  - intros Hc. by rewrite decide_True.
Qed.

(** What becomes of a request once its body has been read, or not. *)
Lemma receive_received r v w :
  payload r = Received v → arrive r w = post (seen r v) w.
Proof. unfold receive. by intros ->. Qed.

Lemma receive_malformed r pos w :
  payload r = Malformed pos → arrive r w = (unprocessable (JsonDecodeError pos), w).
Proof. unfold receive. by intros ->. Qed.

Lemma receive_unreadable r w :
  payload r = Unreadable → arrive r w = (bad_request, w).
Proof. unfold receive. by intros ->. Qed.

(** C4, as the code has it. For a request whose [X-API-Key] header is
    missing, empty or another one than the configured key, neither a call
    on the model client nor a request to the completion API is made, and
    the state is left as it was.  It is answered 403 when its body can be
    read; the body is read before the key is looked at, so a body that
    is not JSON is answered 422 and one that cannot be read 400,
    whatever the key. *)
Theorem unauthenticated_request_rejected r w :
  api_key_header (header r) ≠ Some (Config.api_key settings) →
  arrive r w
  = (match payload r with
     | Received _ => forbidden
     | Malformed pos => unprocessable (JsonDecodeError pos)
     | Unreadable => bad_request
     end, w)
  ∧ calls (arrive r w).2 = calls w
  ∧ sent (arrive r w).2 = sent w.
Proof.
  intros Hkey.
  assert (arrive r w
          = (match payload r with
             | Received _ => forbidden
             | Malformed pos => unprocessable (JsonDecodeError pos)
             | Unreadable => bad_request
             end, w)) as ->; [|done].
  destruct (payload r) as [v|pos|] eqn:Hp.
  - rewrite (receive_received r v) by done. by apply post_forbidden.
  - by apply receive_malformed.
  - by apply receive_unreadable.
Qed.

(** *** The body *)

(** C2, as the code has it. A body whose text has between 10 and 1000
    characters passes the validation of the body parameter.  A request
    whose text is shorter or longer is rejected before the endpoint is
    called: with the validation error, status 422, when its API key is
    the configured one, and with 403 by the authenticator, which is
    solved first, when it is not; the state is left as it was, so the
    model client is not called. *)
Theorem text_length_validation request ms text w :
  body request = JObj ms →
  member "text" ms = Some (JStr text) →
  ((10 ≤ String.length text ≤ 1000)%nat →
   request_body TicketRequest (body request) w = (inr [("text", JStr text)], w))
  ∧ (¬ (10 ≤ String.length text ≤ 1000)%nat →
     post request w
     = (if decide (x_api_key request = Some (Config.api_key settings))
        then unprocessable (FieldErrors ["text"])
        else forbidden, w)).
Proof.
  intros Hbody Hm. split.
  - intros [Hlo Hhi]. unfold request_body.
    by rewrite Hbody, (TicketRequest_validates ms text Hm Hlo Hhi).
  - intros Hout. case_decide as Hkey.
    + apply post_unprocessable; [done|].
      rewrite Hbody. by apply (TicketRequest_rejects ms text).
    + by apply post_forbidden.
Qed.

(** *** The rate limit *)

(** C6, as the code has it. The limiter is consulted by the decorated
    endpoint, which is called only once the body has been read and the
    dependencies are solved.  A request that is not admitted leaves the
    counter of its address as it was: one whose body cannot be read is
    answered 400 and one whose body is not JSON 422, whatever the key;
    one whose body can be read is answered 403 when its header does not
    yield the configured key, and 422 when it does and the body does not
    validate.  A request that is admitted hits the counter of its
    address, whatever the classification does afterwards. *)
Theorem rate_limit_after_dependencies r w :
  (¬ admitted settings r →
   limiter_storage (arrive r w).2 = limiter_storage w)
  ∧ (payload r = Unreadable → (arrive r w).1 = bad_request)
  ∧ (∀ pos, payload r = Malformed pos →
            (arrive r w).1 = unprocessable (JsonDecodeError pos))
  ∧ (∀ v, payload r = Received v →
          api_key_header (header r) ≠ Some (Config.api_key settings) →
          (arrive r w).1 = forbidden)
  ∧ (∀ v err, payload r = Received v →
              api_key_header (header r) = Some (Config.api_key settings) →
              model_validate TicketRequest v = inl err →
              (arrive r w).1 = unprocessable err)
  ∧ (∀ v, payload r = Received v →
          admissible settings (seen r v) →
          limiter_storage (arrive r w).2
          = (Limits.hit Limits.ten_per_minute (SlowAPI.get_remote_address (seen r v))
               (received_at r) (limiter_storage w)).2).
Proof.
  split_and!.
  - intros Hadm. destruct (payload r) as [v|pos|] eqn:Hp.
    + rewrite (receive_received r v) by done.
      destruct (decide (x_api_key (seen r v) = Some (Config.api_key settings)))
        as [Hkey|Hkey]; [|by rewrite post_forbidden].
      destruct (model_validate TicketRequest v) as [err|ticket] eqn:Hbody;
        [by rewrite (post_unprocessable (seen r v) err)|].
      destruct Hadm. exists v. split; [done|]. split; [done|]. by exists ticket.
    + by rewrite (receive_malformed r pos).
    + by rewrite receive_unreadable.
  - intros Hp. by rewrite receive_unreadable.
  - intros pos Hp. by rewrite (receive_malformed r pos).
  - intros v Hp Hkey. rewrite (receive_received r v) by done.
    by rewrite post_forbidden.
  - intros v err Hp Hkey Hbody. rewrite (receive_received r v) by done.
    by rewrite (post_unprocessable (seen r v) err).
  - intros v Hp Hadm. rewrite (receive_received r v) by done.
    by destruct (post_admissible (seen r v) w Hadm) as (-> & _).
Qed.

(** C5, as the code has it. The limit is a fixed window per address: the
    window opens with the first admissible request of the address that
    finds no live window, and lasts 60 seconds.  Of the admissible
    requests the address sends from the opening one on and before the
    window ends, the first 10 pass the limiter and every later one, the
    11th to begin with, is answered 429, whatever other requests are
    served in between.  Requests spread over addresses so that no address
    sends more admissible ones than its counter leaves room for are none
    of them answered 429.  A request that is answered 429 has caused no
    call on the model client. *)
Theorem fixed_window_quota :
  (∀ first rest w,
     admissible settings first →
     Forall (λ r, counted settings (SlowAPI.get_remote_address first) r = true →
                  (now r < now first + 60)%Z) rest →
     (window_end (limiter_storage w) (SlowAPI.get_remote_address first)
      ≤ now first)%Z →
     let answers :=
       answers_to settings (SlowAPI.get_remote_address first) (first :: rest)
         (serve_all (first :: rest) w).1 in
     Forall (λ resp, status_code resp ≠ 429%Z) (take 10 answers)
     ∧ Forall (λ resp, resp = too_many_requests) (drop 10 answers))
  ∧ (∀ requests w,
       Forall (λ r, (counter (limiter_storage w) (SlowAPI.get_remote_address r)
                     + requests_from settings (SlowAPI.get_remote_address r) requests
                     ≤ 10)%nat) requests →
       Forall (λ resp, status_code resp ≠ 429%Z) (serve_all requests w).1)
  ∧ (∀ request w,
       status_code (post request w).1 = 429%Z →
       calls (post request w).2 = calls w ∧ sent (post request w).2 = sent w).
Proof.
  split_and!; [|by apply serve_within_quota|by apply rejected_before_pipeline].
  intros first rest w Hfirst Hrest Hfresh. cbv zeta.
  rewrite serve_cons. cbn [fst snd]. rewrite answers_to_cons.
  replace (counted settings (SlowAPI.get_remote_address first) first) with true
    by (symmetry; by apply counted_true).
  destruct (post_admissible first w Hfirst) as (Hstore & _ & Hunder).
  rewrite hit_incr, incr_fresh in Hstore, Hunder by exact Hfresh.
  cbn [fst snd] in *. destruct Hunder as [Hstatus _]; [done|].
  destruct (serve_live_window (SlowAPI.get_remote_address first) (now first + 60)
              rest (post first w).2 0 Hrest) as (Htake & Hdrop).
  - rewrite Hstore. cbn [storage]. apply lookup_insert_eq.
  - rewrite Hstore. cbn [expirations Limits.ten_per_minute expiry].
    apply lookup_insert_eq.
  - change (9 - 0)%nat with 9%nat in *.
    rewrite firstn_cons, skipn_cons. split; [by constructor|exact Hdrop].
Qed.

(** *** The handlers *)

(** C9, as the code has it. Each declared application error is answered
    with its documented status code, 403, 429 and 500, and a JSON object
    with one text member; for the rate limit this is the body of the
    limiter, whose key is "error". *)
Theorem application_error_responses request w :
  let answer exc := (respond (app_exception_handlers describe) request exc w).1 in
  let one_text_member resp :=
    ∃ key text, response_content resp = Some (JObj [(key, JStr text)]) in
  (status_code (answer (HTTPException 403 "Could not validate API key")) = 403%Z
   ∧ one_text_member (answer (HTTPException 403 "Could not validate API key")))
  ∧ (status_code (answer (RateLimitExceeded Limits.ten_per_minute)) = 429%Z
     ∧ response_content (answer (RateLimitExceeded Limits.ten_per_minute))
       = Some (JObj [("error", JStr "Rate limit exceeded: 10 per 1 minute")]))
  ∧ (status_code (answer (HTTPException 500 "Error classifying ticket")) = 500%Z
     ∧ one_text_member (answer (HTTPException 500 "Error classifying ticket"))).
Proof.
  cbv beta zeta. rewrite respond_http_403, respond_rate_limit, respond_http_500.
  split_and!; try reflexivity; by do 2 eexists.
Qed.

(** The function [http_exception_handler] is registered for no class:
    HTTP exceptions go to the handler a new application comes with. *)
Lemma http_exception_handler_unregistered :
  registered C_HTTPException (app_exception_handlers describe) = None
  ∧ lookup_handler (app_exception_handlers describe)
      (mro (HTTPException 403 "Could not validate API key"))
    = Some fastapi_http_exception_handler.
Proof. by split. Qed.

(** Had the decorator of line 192 been applied to it, the body would
    carry the detail under "message". *)
Lemma http_exception_handler_decorated request status detail w :
  respond
    (exception_handler C_HTTPException http_exception_handler
       (app_exception_handlers describe))
    request (HTTPException status detail) w
  = ({| status_code := status;
        response_content := Some (JObj [("message", JStr detail)]) |}, w).
Proof. reflexivity. Qed.

End RouteProperties.

(** ** Worked cases *)

Section Cases.

#[local] Existing Instance Samples.recent.

Abbreviation sample_post :=
  (post_classify_ticket Samples.settings Samples.answering
     Samples.reask_messages Samples.describe).
Abbreviation sample_serve :=
  (serve Samples.settings Samples.answering
     Samples.reask_messages Samples.describe).
Abbreviation sample_receive :=
  (receive Samples.settings Samples.answering
     Samples.reask_messages Samples.describe).

(** The stub that answers with the refund classification gets it through
    [classify_ticket], and the classification meets the constraints. *)
Lemma classify_ticket_returns_valid_witness :
  ∃ obj w',
    classify_ticket Samples.answering Samples.reask_messages Samples.describe
      Samples.ticket_text Samples.start = (inr obj, w')
    ∧ is_classification (model_dump obj).
Proof.
  eexists _, _. split.
  - reflexivity.
  - eapply (classify_ticket_returns_valid Samples.answering Samples.reask_messages
              Samples.describe Samples.ticket_text Samples.start).
    reflexivity.
Defined.

(** A text of nine characters sent with the configured key is answered
    422, not 400. *)
Lemma short_text_answered_422 :
  (String.length "too short" < 10)%nat
  ∧ status_code (sample_post Samples.short_request Samples.start).1 = 422%Z
  ∧ status_code (sample_post Samples.short_request Samples.start).1 ≠ 400%Z.
Proof. split_and!; [cbn; lia|reflexivity|discriminate]. Qed.

Lemma text_length_validation_witness :
  sample_post Samples.short_request Samples.start
  = (unprocessable (FieldErrors ["text"]), Samples.start)
  ∧ request_body TicketRequest (body (Samples.ticket_from Samples.host 100))
      Samples.start
    = (inr [("text", JStr Samples.ticket_text)], Samples.start).
Proof.
  split.
  - apply (text_length_validation Samples.settings Samples.answering
             Samples.reask_messages Samples.describe Samples.short_request
             [("text", JStr "too short")] "too short" Samples.start eq_refl eq_refl).
    cbn. lia.
  - apply (text_length_validation Samples.settings Samples.answering
             Samples.reask_messages Samples.describe
             (Samples.ticket_from Samples.host 100)
             [("text", JStr Samples.ticket_text)] Samples.ticket_text Samples.start
             eq_refl eq_refl).
    cbn. lia.
Defined.

Lemma authenticate_api_key_spec_witness :
  authenticate_api_key Samples.settings (Some "s3cret") Samples.start
  = (inr (Some "s3cret"), Samples.start)
  ∧ authenticate_api_key Samples.settings None Samples.start
    = (inl (HTTPException 403 "Could not validate API key"), Samples.start).
Proof.
  split.
  - apply (authenticate_api_key_spec Samples.settings (Some "s3cret") Samples.start).
    reflexivity.
  - apply (authenticate_api_key_spec Samples.settings None Samples.start).
    discriminate.
Defined.

(** A ticket without a key is answered 403 and reaches nothing. *)
Lemma unauthenticated_request_rejected_witness :
  sample_receive (Samples.arriving None Samples.ticket) Samples.start
  = (forbidden, Samples.start)
  ∧ calls (sample_receive (Samples.arriving None Samples.ticket) Samples.start).2
    = calls Samples.start
  ∧ sent (sample_receive (Samples.arriving None Samples.ticket) Samples.start).2
    = sent Samples.start.
Proof.
  apply (unauthenticated_request_rejected Samples.settings Samples.answering
           Samples.reask_messages Samples.describe
           (Samples.arriving None Samples.ticket) Samples.start).
  discriminate.
Defined.

(** A request without a key whose body is not JSON is answered 422, and
    one whose body cannot be read 400: neither is answered 403. *)
Lemma keyless_undecodable_not_403 :
  header (Samples.arriving None (Malformed 0)) = None
  ∧ status_code
      (sample_receive (Samples.arriving None (Malformed 0)) Samples.start).1
    = 422%Z
  ∧ status_code
      (sample_receive (Samples.arriving None Unreadable) Samples.start).1
    = 400%Z.
Proof. split_and!; reflexivity. Qed.

(** After a first ticket at time 0, eleven tickets of the same address
    that lie within six seconds of each other are all answered 200: the
    window of the first ticket ends between the fifth and the sixth of
    them.  And of eleven requests within the same second, the eleventh,
    which has no key, is answered 403 and not 429. *)
Lemma window_boundary_burst :
  Forall (λ r, SlowAPI.get_remote_address r = Samples.host ∧ (55 ≤ now r ≤ 61)%Z)
    (drop 1 Samples.boundary_burst)
  ∧ length (drop 1 Samples.boundary_burst) = 11%nat
  ∧ status_code <$> (sample_serve Samples.boundary_burst Samples.start).1
    = replicate 12 200%Z
  ∧ last (status_code <$> (sample_serve Samples.keyless_last Samples.start).1)
    = Some 403%Z.
Proof.
  split_and!.
  - repeat constructor; cbn; lia.
  - reflexivity.
  - vm_compute. reflexivity.
  - vm_compute. reflexivity.
Qed.

(** Ten tickets, a request without a key, a ticket of another address
    and an eleventh ticket: the eleventh is answered 429.  Eleven
    tickets over two addresses: none is answered 429.  Eleven tickets of
    one address: the eleventh adds no call on the model client. *)
Lemma fixed_window_quota_witness :
  Forall (λ resp, resp = too_many_requests)
    (drop 10 (answers_to Samples.settings Samples.host Samples.interleaved
                (sample_serve Samples.interleaved Samples.start).1))
  ∧ Forall (λ resp, status_code resp ≠ 429%Z)
      (sample_serve Samples.two_hosts Samples.start).1
  ∧ calls (sample_serve Samples.eleven Samples.start).2
    = calls (sample_serve (take 10 Samples.eleven) Samples.start).2.
Proof.
  split_and!.
  - generalize (proj2 (proj1 (fixed_window_quota Samples.settings
                  Samples.answering Samples.reask_messages Samples.describe)
                  (Samples.ticket_from Samples.host 100)
                  (tail Samples.interleaved) Samples.start
                  (conj eq_refl (ex_intro _ _ eq_refl))
                  ltac:(repeat constructor)
                  ltac:(vm_compute; discriminate))).
    vm_compute. exact (λ H, H).
  - refine (proj1 (proj2 (fixed_window_quota Samples.settings
              Samples.answering Samples.reask_messages Samples.describe))
              Samples.two_hosts Samples.start _).
    repeat constructor; vm_compute; lia.
  - assert (Hlast : status_code
                      (sample_post (Samples.ticket_from Samples.host 100)
                         (sample_serve (take 10 Samples.eleven) Samples.start).2).1
                    = 429%Z) by (vm_compute; reflexivity).
    generalize (proj1 (proj2 (proj2 (fixed_window_quota Samples.settings
                  Samples.answering Samples.reask_messages Samples.describe))
                  (Samples.ticket_from Samples.host 100)
                  (sample_serve (take 10 Samples.eleven) Samples.start).2
                  Hlast)).
    vm_compute. exact (λ H, H).
Defined.

(** Ten requests with a wrong key leave the counter of the address alone:
    the ticket that follows them within the same second is answered 200,
    and it is the first hit the address has. *)
Lemma failed_authentication_not_counted :
  status_code <$> (sample_serve Samples.guesses_then_ticket Samples.start).1
  = (replicate 10 403%Z ++ [200%Z])%list
  ∧ counter (limiter_storage (sample_serve Samples.guesses_then_ticket Samples.start).2)
      Samples.host = 1%nat.
Proof. split; vm_compute; reflexivity. Qed.

(** A ticket with a wrong key leaves the counter of its address alone,
    and a ticket with the configured key hits it. *)
Lemma rate_limit_after_dependencies_witness :
  limiter_storage
    (sample_receive (Samples.arriving (Some "guess") Samples.ticket) Samples.start).2
  = limiter_storage Samples.start
  ∧ limiter_storage
      (sample_receive (Samples.arriving (Some "s3cret") Samples.ticket)
         Samples.start).2
    = (Limits.hit Limits.ten_per_minute Samples.host 100
         (limiter_storage Samples.start)).2.
Proof.
  split.
  - refine (proj1 (rate_limit_after_dependencies Samples.settings
              Samples.answering Samples.reask_messages Samples.describe
              (Samples.arriving (Some "guess") Samples.ticket) Samples.start) _).
    intros (v & [= <-] & [=] & _).
  - refine (proj2 (proj2 (proj2 (proj2 (proj2
              (rate_limit_after_dependencies Samples.settings
                 Samples.answering Samples.reask_messages Samples.describe
                 (Samples.arriving (Some "s3cret") Samples.ticket) Samples.start)))))
              _ eq_refl _).
    split; [reflexivity|]. eexists. reflexivity.
Defined.

(** The stub whose answers never validate spends the budget: the client
    raises, and [classify_ticket] turns that into the fixed HTTP
    exception. *)
Lemma classify_ticket_failure_witness :
  ∃ e w1,
    Instructor.create Samples.rambling Samples.reask_messages Samples.describe
      (classification_call Samples.ticket_text) Samples.start = (inl e, w1)
    ∧ classify_ticket Samples.rambling Samples.reask_messages Samples.describe
        Samples.ticket_text Samples.start
      = (inl (HTTPException 500 "Error classifying ticket"),
         logged ERROR ("Error classifying ticket: " ++ exc_str e) w1).
Proof.
  eexists _, _. split; [reflexivity|].
  exact (proj1 (classify_ticket_failure Samples.rambling Samples.reask_messages
                  Samples.describe Samples.ticket_text Samples.start _ _ eq_refl)).
Defined.

(** The eleventh of eleven tickets is answered by the handler of the rate
    limiter, whose body has the key "error" and no key "message". *)
Lemma rate_limit_body_key :
  last (sample_serve Samples.eleven Samples.start).1 = Some too_many_requests
  ∧ response_content too_many_requests
    = Some (JObj [("error", JStr "Rate limit exceeded: 10 per 1 minute")])
  ∧ member "message" [("error", JStr "Rate limit exceeded: 10 per 1 minute")] = None.
Proof. split_and!; vm_compute; reflexivity. Qed.

(** A connection that times out on one runtime and a model that never
    conforms on the other look the same from outside. *)
Lemma model_failures_indistinguishable_witness :
  (classify_ticket (runtime := Samples.recent)
     (Samples.failing "Connection timed out") Samples.reask_messages
     Samples.describe Samples.ticket_text Samples.start).1
  = (classify_ticket (runtime := Samples.earlier)
       Samples.rambling Samples.reask_messages Samples.describe
       "Where is my invoice?" Samples.start).1.
Proof.
  refine (proj1 (model_failures_indistinguishable
            Samples.recent Samples.earlier
            (Samples.failing "Connection timed out") Samples.rambling
            Samples.reask_messages Samples.reask_messages
            Samples.describe Samples.describe
            Samples.ticket_text "Where is my invoice?"
            Samples.start Samples.start _ _ _ _ _ _)); reflexivity.
Defined.

End Cases.

(** ** Further properties of the modules *)

Section MoreValidation.

(** X1. A body validates as a [TicketRequest] exactly when it is an
    object whose member "text" is a string of 10 to 1000 characters; the
    instance then holds that text and nothing else, whatever other
    members the body has. *)
Theorem TicketRequest_accepts v ticket :
  model_validate TicketRequest v = inr ticket
  ↔ ∃ ms text,
      v = JObj ms
      ∧ member "text" ms = Some (JStr text)
      ∧ (10 ≤ String.length text ≤ 1000)%nat
      ∧ ticket = [("text", JStr text)].
Proof.
  split.
  - intros (ms & -> & -> & Hall)%model_validate_inr.
    unfold TicketRequest in *. cbn [model_fields] in *.
    apply Forall_cons in Hall as [(v & Hm & Hv & Hval)%field_ok_inv _].
    apply conforms_str in Hv as (text & -> & Hlo & Hhi).
    unfold at_least in Hlo. unfold at_most in Hhi.
    apply Nat.leb_le in Hlo, Hhi.
    exists ms, text. cbn [fmap list_fmap]. by rewrite Hval.
  - intros (ms & text & -> & Hm & [Hlo Hhi] & ->).
    by apply TicketRequest_validates.
Qed.

(** X2. What has validated against [TicketClassification] validates
    against it again, to itself: the [response_model] of the route lets
    every result of the pipeline through as it is. *)
Theorem TicketClassification_revalidates v obj w :
  model_validate TicketClassification v = inr obj →
  model_validate TicketClassification (model_dump obj) = inr obj
  ∧ serialize_response TicketClassification obj w = (inr (model_dump obj), w).
Proof.
  intros Hv. apply TicketClassification_validated in Hv.
  destruct (classification_revalidates obj Hv) as [Hre _].
  split; [exact Hre|]. unfold serialize_response. by rewrite Hre.
Qed.

(** X3. In each of the three enums, different members have different
    values: the string in a response tells which member is meant. *)
Theorem enum_values_distinct :
  (∀ c c', TicketCategory_value c = TicketCategory_value c' → c = c')
  ∧ (∀ u u', TicketUrgency_value u = TicketUrgency_value u' → u = u')
  ∧ (∀ s s', CustomerSentiment_value s = CustomerSentiment_value s' → s = s').
Proof.
  split_and!; intros [] []; (reflexivity || discriminate).
Qed.

(** X4. Whatever the settings hold, reading [settings.OPENAI_API_KEY],
    as line 49 of [main.py] does, raises [AttributeError]: the field is
    declared as [openai_api_key].  Reading [settings.api_key], as
    [security.py] does, gives the configured key. *)
Theorem settings_attributes settings :
  main_openai_api_key settings
  = inl {| exc_class := "AttributeError";
           exc_str := "'Settings' object has no attribute 'OPENAI_API_KEY'" |}
  ∧ Settings_getattr settings "openai_api_key"
    = inr (Config.openai_api_key settings)
  ∧ security_api_key settings = inr (Config.api_key settings).
Proof. by split_and!. Qed.

End MoreValidation.

Section Responses.

Context {runtime : Runtime}.

Variable settings : Config.Settings.
Variable provider : list ChatCompletion → Reply.
Variable reask_messages : option json → ValidationError → list Message.
Variable describe : ValidationError → string.

Abbreviation create := (Instructor.create provider reask_messages describe).
Abbreviation post :=
  (post_classify_ticket settings provider reask_messages describe).
Abbreviation arrive := (receive settings provider reask_messages describe).

Lemma TicketRequest_text v ticket :
  model_validate TicketRequest v = inr ticket →
  ∃ ms text, v = JObj ms ∧ member "text" ms = Some (JStr text)
             ∧ ticket = [("text", JStr text)].
Proof.
  intros (ms & -> & -> & Hall)%model_validate_inr.
  unfold TicketRequest in *. cbn [model_fields] in *.
  apply Forall_cons in Hall as [(v & Hm & Hv & Hval)%field_ok_inv _].
  apply conforms_str in Hv as (text & -> & _).
  exists ms, text. cbn [fmap list_fmap]. by rewrite Hval.
Qed.

(** The five ways a request whose body has been read is answered, each
    with what decides it and with the state it leaves. *)
Lemma post_shape request w :
  (x_api_key request ≠ Some (Config.api_key settings)
   ∧ post request w = (forbidden, w))
  ∨ (x_api_key request = Some (Config.api_key settings)
     ∧ ∃ err, model_validate TicketRequest (body request) = inl err
              ∧ post request w = (unprocessable err, w))
  ∨ (admissible settings request
     ∧ ∃ s', Limits.hit Limits.ten_per_minute (SlowAPI.get_remote_address request)
               (now request) (limiter_storage w) = (false, s')
             ∧ post request w = (too_many_requests, limited s' w))
  ∨ (admissible settings request
     ∧ ∃ s' ms text e w2,
         Limits.hit Limits.ten_per_minute (SlowAPI.get_remote_address request)
           (now request) (limiter_storage w) = (true, s')
         ∧ body request = JObj ms ∧ member "text" ms = Some (JStr text)
         ∧ create (classification_call text) (limited s' w) = (inl e, w2)
         ∧ post request w
           = (classification_failed,
              logged ERROR ("Error classifying ticket: " ++ exc_str e) w2))
  ∨ (admissible settings request
     ∧ ∃ s' ms text obj w2 c,
         Limits.hit Limits.ten_per_minute (SlowAPI.get_remote_address request)
           (now request) (limiter_storage w) = (true, s')
         ∧ body request = JObj ms ∧ member "text" ms = Some (JStr text)
         ∧ create (classification_call text) (limited s' w) = (inr obj, w2)
         ∧ is_classification (model_dump obj)
         ∧ member "category" obj = Some (JStr (TicketCategory_value c))
         ∧ post request w
           = ({| status_code := 200; response_content := Some (model_dump obj) |},
              logged INFO ("Ticket classified: " ++ format_category c) w2)).
Proof.
  destruct (decide (x_api_key request = Some (Config.api_key settings)))
    as [Hkey|Hkey]; [|left; split; [done|by apply post_forbidden]].
  destruct (model_validate TicketRequest (body request)) as [err|ticket] eqn:Hbody.
  { right. left. split; [done|]. exists err. split; [done|].
    by apply post_unprocessable. }
  assert (Hadm : admissible settings request) by (split; eauto).
  destruct (post_admitted settings provider reask_messages describe
              request ticket w Hkey Hbody) as (text & -> & _ & Hpost).
  destruct (TicketRequest_text _ _ Hbody) as (ms & text' & Hms & Hm & [= <-]).
  destruct (Limits.hit _ _ _ _) as [[|] s'].
  - destruct (create (classification_call text) (limited s' w)) as [[e|obj] w2] eqn:Hc.
    + do 3 right. left. split; [done|]. by exists s', ms, text, e, w2.
    + do 4 right. split; [done|].
      assert (Hobj : is_classification (model_dump obj))
        by (by eapply create_returns_valid).
      destruct (classification_revalidates obj Hobj) as (_ & c & Hcat).
      exists s', ms, text, obj, w2, c.
      split_and!; try done. rewrite Hpost. unfold held_category, category_of.
      by rewrite Hcat, TicketCategory_of_value_value.
  - do 2 right. left. split; [done|]. by exists s'.
Qed.

(** The ways a request is answered as it arrives: the two that do not
    get to the route, and the five of the route. *)
Lemma receive_shape r w :
  (payload r = Unreadable ∧ arrive r w = (bad_request, w))
  ∨ (∃ pos, payload r = Malformed pos
            ∧ arrive r w = (unprocessable (JsonDecodeError pos), w))
  ∨ (∃ v, payload r = Received v ∧ arrive r w = post (seen r v) w).
Proof.
  destruct (payload r) as [v|pos|] eqn:Hp.
  - do 2 right. exists v. split; [done|]. by apply receive_received.
  - right. left. exists pos. split; [done|]. by apply receive_malformed.
  - left. split; [done|]. by apply receive_unreadable.
Qed.

(** X5. A request to the route is answered in one of six ways: 400 for
    a body that cannot be read, 422 for a body that is not JSON or does
    not validate, 403 for the key, 429 for the rate, 500 for a failed
    classification, or 200 with a classification that meets the field
    constraints.  The answer of the general handler is none of them. *)
Theorem classify_ticket_route_answers r w :
  ((arrive r w).1 = bad_request
   ∨ (∃ err, (arrive r w).1 = unprocessable err)
   ∨ (arrive r w).1 = forbidden
   ∨ (arrive r w).1 = too_many_requests
   ∨ (arrive r w).1 = classification_failed
   ∨ (∃ v, (arrive r w).1
           = {| status_code := 200; response_content := Some v |}
           ∧ is_classification v))
  ∧ (arrive r w).1 ≠ unexpected_error.
Proof.
  destruct (receive_shape r w) as [(_ & ->)|[(pos & _ & ->)|(v & _ & ->)]].
  - split; [by left|done].
  - split; [|done]. right. left. by eexists.
  - destruct (post_shape (seen r v) w)
      as [(_ & ->)|[(_ & err & _ & ->)|[(_ & s' & _ & ->)|
          [(_ & s' & ms & text & e & w2 & _ & _ & _ & _ & ->)|
           (_ & s' & ms & text & obj & w2 & c & _ & _ & _ & _ & Hobj & _ & ->)]]]];
      cbn [fst]; (split; [|done]).
    + do 2 right. by left.
    + right. left. by exists err.
    + do 3 right. by left.
    + do 4 right. by left.
    + do 5 right. by exists (model_dump obj).
Qed.

(** X6. The four rejections and what decides them.  400: the body
    cannot be read.  422: the body is not JSON, or it is read, the header
    yields the configured key, and the value does not validate.  403:
    the body is read and the header, which yields nothing when it is
    missing or empty, does not yield the configured key.  429: the
    request is admitted and the hit on the counter of its address exceeds
    the limit. *)
Theorem rejection_statuses r w :
  (status_code (arrive r w).1 = 400%Z ↔ payload r = Unreadable)
  ∧ (status_code (arrive r w).1 = 422%Z
     ↔ (∃ pos, payload r = Malformed pos)
       ∨ (∃ v err, payload r = Received v
                   ∧ api_key_header (header r) = Some (Config.api_key settings)
                   ∧ model_validate TicketRequest v = inl err))
  ∧ (status_code (arrive r w).1 = 403%Z
     ↔ (∃ v, payload r = Received v)
       ∧ api_key_header (header r) ≠ Some (Config.api_key settings))
  ∧ (status_code (arrive r w).1 = 429%Z
     ↔ ∃ v, payload r = Received v
            ∧ admissible settings (seen r v)
            ∧ (Limits.hit Limits.ten_per_minute
                 (SlowAPI.get_remote_address (seen r v))
                 (received_at r) (limiter_storage w)).1 = false).
Proof.
  destruct (receive_shape r w) as [(Hp & ->)|[(pos & Hp & ->)|(v & Hp & ->)]].
  - cbn [fst status_code bad_request]. rewrite Hp.
    split_and!; split; try done; try (by intros [=]).
    + by intros [(? & [=])|(? & ? & [=] & _)].
    + by intros ((? & [=]) & _).
    + by intros (? & [=] & _).
  - cbn [fst status_code unprocessable]. rewrite Hp.
    split_and!; split; try done; try (by intros [=]).
    + intros _. left. by exists pos.
    + by intros ((? & [=]) & _).
    + by intros (? & [=] & _).
  - rewrite Hp.
    destruct (post_shape (seen r v) w)
      as [(Hkey & ->)|[(Hkey & err & Herr & ->)|[(Hadm & s' & Hhit & ->)|
          [(Hadm & s' & ms & text & e & w2 & Hhit & _ & _ & _ & ->)|
           (Hadm & s' & ms & text & obj & w2 & c & Hhit & _ & _ & _ & _ & _ & ->)]]]];
      cbn [fst status_code forbidden unprocessable too_many_requests
           classification_failed];
      cbn [seen x_api_key body now] in *; unfold admissible in *;
      cbn [seen x_api_key body now] in *;
      (split_and!; split; intros H; try discriminate H; try done;
       repeat match goal with
              | H : _ ∧ _ |- _ => destruct H
              | H : _ ∨ _ |- _ => destruct H
              | H : ∃ _, _ |- _ => destruct H
              | H : Received _ = Received _ |- _ => injection H as <-
              end;
       try rewrite Hhit in *; cbn [fst] in *;
       try congruence;
       try (exists v; rewrite ?Hhit; by eauto 8);
       eauto 8).
Qed.

(** X7. A request adds at most one record to the log.  When it is
    answered 200 the record is at level INFO and holds the category of
    the classification in the response, as the runtime formats a member
    of [TicketCategory]; when it is answered 500 the record is at level
    ERROR and holds the text of the exception of the model client; a
    request that is rejected adds none. *)
Theorem log_discipline r w :
  (status_code (arrive r w).1 = 200%Z →
   ∃ (c : TicketCategory) (obj : instance),
     response_content (arrive r w).1 = Some (model_dump obj)
     ∧ member "category" obj = Some (JStr (TicketCategory_value c))
     ∧ records (arrive r w).2
       = (records w ++ [{| levelname := INFO;
                           message := "Ticket classified: " ++ format_category c |}])%list)
  ∧ (status_code (arrive r w).1 = 500%Z →
     ∃ e : Exception,
       records (arrive r w).2
       = (records w ++ [{| levelname := ERROR;
                           message := "Error classifying ticket: " ++ exc_str e |}])%list)
  ∧ (status_code (arrive r w).1 ≠ 200%Z →
     status_code (arrive r w).1 ≠ 500%Z →
     records (arrive r w).2 = records w).
Proof.
  destruct (receive_shape r w) as [(_ & ->)|[(pos & _ & ->)|(v & _ & ->)]];
    [split_and!; done..|].
  destruct (post_shape (seen r v) w)
    as [(_ & ->)|[(_ & err & _ & ->)|[(_ & s' & _ & ->)|
        [(_ & s' & ms & text & e & w2 & _ & _ & _ & Hc & ->)|
         (_ & s' & ms & text & obj & w2 & c & _ & _ & _ & Hc & Hobj & Hcat & ->)]]]];
    cbn [fst snd status_code forbidden unprocessable too_many_requests
         classification_failed]; try (split_and!; done).
  - destruct (create_spec provider reask_messages describe
                (classification_call text) (limited s' w)) as (r' & cs & Hrun & _).
    rewrite Hc in Hrun. injection Hrun as _ ->.
    split_and!; [done| |done]. intros _. by exists e.
  - destruct (create_spec provider reask_messages describe
                (classification_call text) (limited s' w)) as (r' & cs & Hrun & _).
    rewrite Hc in Hrun. injection Hrun as _ ->.
    split_and!; [|done|done]. intros _. by exists c, obj.
Qed.

(** X8. The model client is called for a request exactly when the
    request is answered 200 or 500: once, with the text of the body as
    the user message, and the first request to the completion API is the
    one made of that call.  A request that is rejected causes no call and
    no request. *)
Theorem model_client_usage r w :
  (status_code (arrive r w).1 = 200%Z ∨ status_code (arrive r w).1 = 500%Z →
   ∃ ms text cs,
     payload r = Received (JObj ms)
     ∧ member "text" ms = Some (JStr text)
     ∧ calls (arrive r w).2 = (calls w ++ [classification_call text])%list
     ∧ sent (arrive r w).2
       = (sent w ++ first_completion (classification_call text) :: cs)%list)
  ∧ (status_code (arrive r w).1 ≠ 200%Z →
     status_code (arrive r w).1 ≠ 500%Z →
     calls (arrive r w).2 = calls w ∧ sent (arrive r w).2 = sent w).
Proof.
  destruct (receive_shape r w) as [(_ & ->)|[(pos & _ & ->)|(v & Hp & ->)]];
    [split; [by intros [|]|done]..|].
  destruct (post_shape (seen r v) w)
    as [(_ & ->)|[(_ & err & _ & ->)|[(_ & s' & _ & ->)|
        [(_ & s' & ms & text & e & w2 & _ & Hbody & Hm & Hc & ->)|
         (_ & s' & ms & text & obj & w2 & c & _ & Hbody & Hm & Hc & _ & _ & ->)]]]];
    cbn [fst snd status_code forbidden unprocessable too_many_requests
         classification_failed];
    try (split; [by intros [|]|done]);
    cbn [seen body] in Hbody; subst v;
    destruct (create_spec provider reask_messages describe
                (classification_call text) (limited s' w))
      as (r' & cs & Hrun & Hlen & _);
    rewrite Hc in Hrun; injection Hrun as _ ->;
    (split; [|done]); intros _; by exists ms, text, cs.
Qed.

End Responses.

Section Windows.

Context {runtime : Runtime}.

Variable settings : Config.Settings.
Variable provider : list ChatCompletion → Reply.
Variable reask_messages : option json → ValidationError → list Message.
Variable describe : ValidationError → string.

Abbreviation post :=
  (post_classify_ticket settings provider reask_messages describe).
Abbreviation serve_all := (serve settings provider reask_messages describe).

(** What a request does to the storage of the limiter: nothing, or one
    hit on the counter of its address. *)
Lemma post_storage request w :
  limiter_storage (post request w).2 = limiter_storage w
  ∨ (admissible settings request
     ∧ limiter_storage (post request w).2
       = (Limits.incr (SlowAPI.get_remote_address request) 60 (now request)
            (limiter_storage w)).2).
Proof.
  destruct (admissibleb settings request) eqn:Hadm.
  - apply admissibleb_true in Hadm. right. split; [done|].
    destruct (post_admissible settings provider reask_messages describe
                request w Hadm) as (-> & _).
    by rewrite hit_incr.
  - left. by destruct (post_not_admissible settings provider reask_messages
                         describe request w Hadm) as [-> _].
Qed.

(** X9. A request changes the counter and the window of no address but
    its own. *)
Theorem other_addresses_untouched request w key :
  key ≠ SlowAPI.get_remote_address request →
  storage (limiter_storage (post request w).2) !! key
  = storage (limiter_storage w) !! key
  ∧ expirations (limiter_storage (post request w).2) !! key
    = expirations (limiter_storage w) !! key.
Proof.
  intros Hne. destruct (post_storage request w) as [->|[_ ->]]; [done|].
  by apply incr_other.
Qed.

(** X10. Once the window of an address has ended, its next admissible
    request is let through, however high the counter stood: the counter
    starts again at 1 and the new window ends 60 seconds later. *)
Theorem window_reopens request w :
  admissible settings request →
  (window_end (limiter_storage w) (SlowAPI.get_remote_address request)
   ≤ now request)%Z →
  status_code (post request w).1 ≠ 429%Z
  ∧ counter (limiter_storage (post request w).2)
      (SlowAPI.get_remote_address request) = 1%nat
  ∧ window_end (limiter_storage (post request w).2)
      (SlowAPI.get_remote_address request) = (now request + 60)%Z.
Proof.
  intros Hadm Hended.
  destruct (post_admissible settings provider reask_messages describe
              request w Hadm) as (Hstore & _ & Hunder).
  rewrite hit_incr, incr_fresh in Hstore, Hunder by exact Hended.
  cbn [fst snd] in *. rewrite Hstore. unfold counter, window_end.
  cbn [storage expirations Limits.ten_per_minute expiry].
  rewrite !lookup_insert_eq. split_and!; [|done..].
  by apply Hunder.
Qed.

Lemma get_ok key t s : storage_ok s → storage_ok (Limits.get key t s).
Proof.
  intros Hok key'. unfold Limits.get. case_decide; [|apply Hok].
  cbn [storage expirations]. destruct (decide (key' = key)) as [->|Hne].
  - by rewrite !lookup_delete_eq.
  - rewrite !lookup_delete_ne by done. apply Hok.
Qed.

Lemma incr_ok key expiry t s :
  storage_ok s → storage_ok (Limits.incr key expiry t s).2.
Proof.
  intros Hok key'. unfold Limits.incr. cbn [snd storage expirations].
  pose proof (get_ok key t s Hok) as Hget.
  destruct (decide (key' = key)) as [->|Hne].
  - rewrite lookup_insert_eq. specialize (Hget key).
    case_decide as Hone.
    + rewrite lookup_insert_eq. lia.
    + destruct (storage (Limits.get key t s) !! key) as [n|] eqn:Hn;
        [|by cbn in Hone].
      destruct (expirations (Limits.get key t s) !! key); [lia|done].
  - rewrite lookup_insert_ne by done. specialize (Hget key').
    case_decide; [by rewrite lookup_insert_ne|done].
Qed.

(** X11. Serving requests keeps the storage of the limiter well formed:
    a key has no entry, or a counter of at least one and the end of its
    window. *)
Theorem storage_stays_well_formed requests w :
  storage_ok (limiter_storage w) →
  storage_ok (limiter_storage (serve_all requests w).2).
Proof.
  revert w. induction requests as [|r rest IH]; intros w Hok; [done|].
  rewrite serve_cons. cbn [snd]. apply IH.
  destruct (post_storage r w) as [->|[_ ->]]; [done|]. by apply incr_ok.
Qed.

(** X12. Inside a live window an admissible request adds one to the
    counter of its address and leaves the end of the window where it is,
    also when the request is answered 429, which it is exactly when the
    counter stood at 10 or more. *)
Theorem live_window_counts request w window_ends :
  storage_ok (limiter_storage w) →
  admissible settings request →
  expirations (limiter_storage w) !! SlowAPI.get_remote_address request
  = Some window_ends →
  (now request < window_ends)%Z →
  counter (limiter_storage (post request w).2) (SlowAPI.get_remote_address request)
  = S (counter (limiter_storage w) (SlowAPI.get_remote_address request))
  ∧ window_end (limiter_storage (post request w).2)
      (SlowAPI.get_remote_address request) = window_ends
  ∧ (status_code (post request w).1 = 429%Z
     ↔ (10 ≤ counter (limiter_storage w) (SlowAPI.get_remote_address request))%nat).
Proof.
  intros Hok Hadm Hends Hnow.
  set (key := SlowAPI.get_remote_address request) in *.
  specialize (Hok key). rewrite Hends in Hok.
  destruct (storage (limiter_storage w) !! key) as [[|n]|] eqn:Hn; [lia| |done].
  destruct (post_admissible settings provider reask_messages describe
              request w Hadm) as (Hstore & Hover & Hunder).
  fold key in Hstore, Hover, Hunder.
  rewrite hit_incr in Hstore, Hover, Hunder.
  rewrite (incr_live key _ (now request) _ n) in Hstore, Hover, Hunder;
    try first [exact Hn|unfold window_end; rewrite Hends; exact Hnow].
  cbn [fst snd Limits.ten_per_minute amount] in *.
  rewrite Hstore. unfold counter, window_end. cbn [storage expirations].
  rewrite lookup_insert_eq, Hn, Hends. cbn [default]. split_and!; [done..|].
  destruct (decide (S n < 10)%nat) as [Hlt|Hge].
  - destruct Hunder as [Hstatus _]; [apply Nat.leb_le; lia|].
    split; [done|]. unfold id. lia.
  - destruct Hover as (-> & _); [apply Nat.leb_gt; lia|].
    split; [|done]. unfold id. lia.
Qed.

End Windows.

Section Retries.

Context {runtime : Runtime}.

Variable provider : list ChatCompletion → Reply.
Variable reask_messages : option json → ValidationError → list Message.
Variable describe : ValidationError → string.

Abbreviation attempt := (Instructor.attempt provider reask_messages describe).
Abbreviation retry_sync := (Instructor.retry_sync provider reask_messages describe).
Abbreviation create := (Instructor.create provider reask_messages describe).
Abbreviation classify := (classify_ticket provider reask_messages describe).

Lemma continues_refl c : continues c c.
Proof.
  split; [apply same_settings_refl|]. exists []. by rewrite app_nil_r.
Qed.

Lemma continues_trans c1 c2 c3 :
  continues c1 c2 → continues c2 c3 → continues c1 c3.
Proof.
  intros [Hs [m Hm]] [Hs' [m' Hm']]. split.
  - by eapply same_settings_trans.
  - exists (m ++ m')%list. by rewrite Hm', Hm, app_assoc.
Qed.

(** A failed attempt asks next with a request that continues the one it
    made. *)
Lemma attempt_continues c w e c' w' :
  attempt c w = (inr (inl (e, c')), w') → continues c c'.
Proof.
  unfold Instructor.attempt, try_except, Instructor.post, mbind, M_bind, mret, M_ret.
  destruct (provider _) as [e0|out].
  - destruct (retried e0); [|discriminate].
    intros [= _ <- _]. apply continues_refl.
  - destruct (model_validate_json (chat_tool c) out) as [err|obj]; [|discriminate].
    intros [= _ <- _]. split; [by unfold same_settings|]. by eexists.
Qed.

(** Every request the retry loop sends continues the first one. *)
Lemma retry_sync_continues more c w :
  ∃ cs, (retry_sync more c w).2 = sending (c :: cs) w
        ∧ Forall (continues c) cs.
Proof.
  revert c w. induction more as [|n IH]; intros c w;
    destruct (attempt_spec provider reask_messages describe c w)
      as ([e0|[[e c']|obj]] & Hrun & _);
    cbn [Instructor.retry_sync]; unfold mbind, M_bind; rewrite Hrun.
  - by exists [].
  - by exists [].
  - by exists [].
  - by exists [].
  - destruct (IH c' (sending [c] w)) as (cs & Hrec & Hall).
    exists (c' :: cs). rewrite Hrec, sending_sending. split; [done|].
    pose proof (attempt_continues _ _ _ _ _ Hrun) as Hc.
    constructor; [done|].
    eapply Forall_impl; [exact Hall|]. intros c''. by apply continues_trans.
  - by exists [].
Qed.

(** X13. Every request [classify_ticket] sends to the completion API, the
    first and the ones that ask again, is for the model "gpt-4o-mini" with
    temperature 0 and the schema [TicketClassification], and its
    conversation starts with the system prompt and the ticket text. *)
Theorem conversation_kept text w :
  ∃ cs, sent (classify text w).2 = (sent w ++ cs)%list
        ∧ cs ≠ []
        ∧ Forall (λ c, chat_model c = "gpt-4o-mini"
                       ∧ chat_temperature c = 0%Z
                       ∧ chat_tool c = TicketClassification
                       ∧ ∃ more,
                           chat_messages c
                           = ({| role := "system"; content := SYSTEM_PROMPT |}
                                :: {| role := "user"; content := text |}
                                :: more)) cs.
Proof.
  rewrite classify_ticket_unfold.
  unfold Instructor.create.
  destruct (retry_sync_continues
              (further_attempts (max_retries (classification_call text)))
              (first_completion (classification_call text))
              (calling (classification_call text) w)) as (cs & Hw & Hall).
  fold (calling (classification_call text) w) (first_completion (classification_call text)).
  destruct (retry_sync _ _ _) as [[e|obj] w'] eqn:Hrun; cbn [snd] in *; subst w';
    exists (first_completion (classification_call text) :: cs);
    (split; [done|]); (split; [done|]);
    (constructor; [split_and!; try done; by exists []|]);
    (eapply Forall_impl; [exact Hall|]);
    intros c [(Hm & Ht & Hs) [more Hmore]];
    (split_and!; [done..|]); exists more; by rewrite Hmore.
Qed.

(** With a completion API none of whose replies can be used, the retry
    loop raises, after one request at least and one more than its budget
    at most; it spends the whole budget when every reply is an output
    that does not validate. *)
Lemma retry_sync_fruitless more : ∀ c w,
  (∀ history, fruitless (chat_tool c) (provider history)) →
  ∃ e cs, retry_sync more c w = (inl e, sending (c :: cs) w)
          ∧ (length cs ≤ more)%nat
          ∧ ((∀ history, ∃ out, provider history = Returns out) →
             length cs = more).
Proof.
  induction more as [|n IH]; intros c w Hbad;
    destruct (attempt_spec provider reask_messages describe c w)
      as (r & Hrun & Hr);
    cbn [Instructor.retry_sync]; unfold mbind, M_bind; rewrite Hrun;
    (assert (Hraise : ∀ e, r = inl e →
               ¬ ∀ history, ∃ out, provider history = Returns out)
       by (intros e0 -> Hout; revert Hrun;
           unfold Instructor.attempt, try_except, Instructor.post, mbind, M_bind,
             mret, M_ret; cbn [sent];
           destruct (Hout (sent w ++ [c])%list) as [out ->];
           by destruct (model_validate_json (chat_tool c) out)));
    (assert (Hnone : ∀ obj, r ≠ inr (inr obj))
       by (intros obj ->; revert Hrun;
           unfold Instructor.attempt, try_except, Instructor.post, mbind, M_bind,
             mret, M_ret; cbn [sent];
           specialize (Hbad (sent w ++ [c])%list);
           destruct (provider _) as [e0|out];
           [by destruct (retried e0)|by destruct Hbad as [err ->]]));
    destruct r as [e0|[[e c']|obj]]; try (by destruct (Hnone obj)).
  - exists e0, []. split_and!; [done..|]. intros Hout. by destruct (Hraise e0).
  - by exists (Instructor.InstructorRetryException e), [].
  - exists e0, []. split_and!; [done|simpl; lia|].
    intros Hout. by destruct (Hraise e0).
  - destruct Hr as (_ & _ & Htool).
    destruct (IH c' (sending [c] w)) as (e' & cs & -> & Hlen & Hall).
    { by rewrite Htool. }
    exists e', (c' :: cs). rewrite sending_sending. split; [done|].
    split; [simpl; lia|]. intros Hout. simpl. by rewrite Hall.
Qed.

(** X14. Against a completion API none of whose replies can be used,
    because the call raises or the output does not validate,
    [classify_ticket] raises the HTTP exception with status 500 and logs
    the failure, after a first request and at most as many further ones
    as the runtime grants for a retry budget of 3; when every reply is an
    output that does not validate it makes all of them. *)
Theorem persistent_failure_spends_budget text w :
  (∀ history, fruitless TicketClassification (provider history)) →
  ∃ e cs,
    classify text w
    = (inl (HTTPException 500 "Error classifying ticket"),
       logged ERROR ("Error classifying ticket: " ++ exc_str e)
         (sending (first_completion (classification_call text) :: cs)
            (calling (classification_call text) w)))
    ∧ (length cs ≤ further_attempts 3)%nat
    ∧ ((∀ history, ∃ out, provider history = Returns out) →
       length cs = further_attempts 3).
Proof.
  intros Hbad. rewrite classify_ticket_unfold. unfold Instructor.create.
  fold (calling (classification_call text) w)
       (first_completion (classification_call text)).
  destruct (retry_sync_fruitless
              (further_attempts (max_retries (classification_call text)))
              (first_completion (classification_call text))
              (calling (classification_call text) w) Hbad)
    as (e & cs & -> & Hlen & Hall).
  by exists e, cs.
Qed.

(** X15. When the reply to the first request is an object whose six
    declared members conform, [classify_ticket] returns after that one
    request, with exactly the six declared fields holding the values of
    the reply; members the schema does not declare are dropped. *)
Theorem first_conforming_reply_returned text w ms :
  provider (sent w ++ [first_completion (classification_call text)])%list
  = Returns (Some (JObj ms)) →
  Forall (λ f, field_ok ms f = true) (model_fields TicketClassification) →
  classify text w
  = (inr (field_value ms <$> model_fields TicketClassification),
     sending [first_completion (classification_call text)]
       (calling (classification_call text) w))
  ∧ fst <$> (field_value ms <$> model_fields TicketClassification)
    = ["category"; "urgency"; "sentiment"; "confidence"; "key_information";
       "suggested_action"].
Proof.
  intros Hreply Hok. split; [|reflexivity]. rewrite classify_ticket_unfold.
  unfold Instructor.create.
  fold (calling (classification_call text) w)
       (first_completion (classification_call text)).
  destruct (further_attempts _);
    cbn [Instructor.retry_sync]; unfold mbind at 1, M_bind at 1;
    unfold Instructor.attempt, try_except, Instructor.post, mbind, M_bind,
      mret, M_ret;
    cbn [sent calling]; rewrite Hreply;
    cbn [model_validate_json first_completion chat_tool classification_call
         response_model];
    by rewrite (model_validate_ok TicketClassification ms Hok).
Qed.

End Retries.

Section Handlers.

Context {runtime : Runtime}.

Variable settings : Config.Settings.
Variable provider : list ChatCompletion → Reply.
Variable reask_messages : option json → ValidationError → list Message.
Variable describe : ValidationError → string.

(** X16. The general handler answers exactly the exceptions no other
    handler takes, that is every exception that is neither an HTTP
    exception nor a validation error of the request: with status 500 and
    the fixed body, after logging the text of the exception. *)
Theorem unhandled_exception_answer request exc w :
  ((respond (app_exception_handlers describe) request exc w).1 = unexpected_error
   ↔ (∃ e, exc = Error e) ∨ (∃ errs, exc = ResponseValidationError errs))
  ∧ ((∃ e, exc = Error e) ∨ (∃ errs, exc = ResponseValidationError errs) →
     respond (app_exception_handlers describe) request exc w
     = (unexpected_error,
        logged ERROR ("Unhandled exception: " ++ exn_str describe exc) w)).
Proof.
  split; [|by intros [[e ->]|[errs ->]]].
  destruct exc as [status detail|limit|errs|errs|e].
  - split; [|by intros [[? [=]]|[? [=]]]].
    change (respond (app_exception_handlers describe) request
              (HTTPException status detail) w)
      with (fastapi_http_exception_handler request (HTTPException status detail) w).
    unfold fastapi_http_exception_handler. cbn [exc_status_code exc_detail].
    by destruct (is_body_allowed_for_status_code status).
  - split; [done|by intros [[? [=]]|[? [=]]]].
  - split; [done|by intros [[? [=]]|[? [=]]]].
  - split; [|done]. intros _. right. by exists errs.
  - split; [|done]. intros _. left. by exists e.
Qed.

(** X17. An HTTP exception raised in the route is answered by the handler
    the application comes with, with the status of the exception and its
    detail under "detail"; [http_exception_handler], which would put the
    detail under "message", answers none. *)
Theorem http_exception_handler_bypassed request status detail w :
  is_body_allowed_for_status_code status = true →
  respond (app_exception_handlers describe) request (HTTPException status detail) w
  = ({| status_code := status;
        response_content := Some (JObj [("detail", JStr detail)]) |}, w)
  ∧ http_exception_handler request (HTTPException status detail) w
    = ({| status_code := status;
          response_content := Some (JObj [("message", JStr detail)]) |}, w)
  ∧ (respond (app_exception_handlers describe) request
       (HTTPException status detail) w).1
    ≠ (http_exception_handler request (HTTPException status detail) w).1.
Proof.
  intros Hallowed.
  assert (Hrespond :
    respond (app_exception_handlers describe) request (HTTPException status detail) w
    = ({| status_code := status;
          response_content := Some (JObj [("detail", JStr detail)]) |}, w)).
  { change (respond (app_exception_handlers describe) request
              (HTTPException status detail) w)
      with (fastapi_http_exception_handler request (HTTPException status detail) w).
    unfold fastapi_http_exception_handler. cbn [exc_status_code exc_detail].
    by rewrite Hallowed. }
  split_and!; [exact Hrespond|reflexivity|].
  rewrite Hrespond. cbn. discriminate.
Qed.

Abbreviation serve_all := (serve settings provider reask_messages describe).
Abbreviation serve_both := (serve_calls settings provider reask_messages describe).

Lemma serve_calls_cons call rest w :
  serve_both (call :: rest) w
  = ((app settings provider reask_messages describe call w).1
       :: (serve_both rest (app settings provider reask_messages describe call w).2).1,
     (serve_both rest (app settings provider reask_messages describe call w).2).2).
Proof.
  cbn [serve_calls].
  destruct (app settings provider reask_messages describe call w) as [resp w1].
  cbn [fst snd]. by destruct (serve_calls _ _ _ _ rest w1).
Qed.

(** X18. The health route answers every probe with 200 and the status
    "healthy", whatever the state of the limiter, and probes leave no
    trace: the requests to the classification route are answered as they
    are without the probes, and the state ends the same. *)
Theorem health_probes_transparent calls w :
  (serve_both calls w).2 = (serve_all (posts calls) w).2
  ∧ post_answers calls (serve_both calls w).1 = (serve_all (posts calls) w).1
  ∧ Forall (λ resp, status_code resp = 200%Z
                    ∧ ∃ timestamp, response_content resp = Some (health timestamp))
      (health_answers calls (serve_both calls w).1).
Proof.
  revert w. induction calls as [|[request|timestamp] rest IH]; intros w.
  - by split_and!.
  - rewrite serve_calls_cons. cbn [posts app fst snd post_answers health_answers].
    rewrite serve_cons. cbn [fst snd].
    destruct (IH (post_classify_ticket settings provider reask_messages describe
                    request w).2) as (-> & -> & Hh).
    by split_and!.
  - rewrite serve_calls_cons. cbn [posts app fst snd post_answers health_answers].
    destruct (IH w) as (-> & -> & Hh).
    split_and!; [done..|]. constructor; [|done]. split; [done|]. by exists timestamp.
Qed.

End Handlers.

(** ** Further worked cases *)

Section MoreCases.

#[local] Existing Instance Samples.recent.

Abbreviation sample_post :=
  (post_classify_ticket Samples.settings Samples.answering
     Samples.reask_messages Samples.describe).
Abbreviation sample_serve :=
  (serve Samples.settings Samples.answering
     Samples.reask_messages Samples.describe).
Abbreviation sample_receive :=
  (receive Samples.settings Samples.answering
     Samples.reask_messages Samples.describe).

(** The sample storages are well formed, and the sample tickets
    admissible. *)
Lemma exhausted_ok : storage_ok (limiter_storage Probes.exhausted).
Proof.
  intros key. cbn [Probes.exhausted limiter_storage storage expirations].
  destruct (decide (key = Samples.host)) as [->|Hne].
  - rewrite !lookup_singleton_eq. lia.
  - by rewrite !lookup_singleton_ne.
Qed.

Lemma start_ok : storage_ok (limiter_storage Samples.start).
Proof. intros key. cbn. by rewrite !lookup_empty. Qed.

Lemma ticket_admissible host t :
  admissible Samples.settings (Samples.ticket_from host t).
Proof. split; [reflexivity|]. eexists. reflexivity. Qed.

Lemma TicketClassification_revalidates_witness :
  ∃ obj,
    model_validate TicketClassification Samples.refund = inr obj
    ∧ model_validate TicketClassification (model_dump obj) = inr obj.
Proof.
  eexists. split; [reflexivity|].
  eapply (proj1 (TicketClassification_revalidates Samples.refund _ Samples.start _)).
  Unshelve. reflexivity.
Defined.

Lemma enum_values_distinct_witness :
  TicketCategory_value BILLING ≠ TicketCategory_value OTHER.
Proof.
  intros Heq. pose proof (proj1 enum_values_distinct BILLING OTHER Heq). discriminate.
Defined.

(** On the recent runtime the record of a classified ticket names the
    member, on the earlier one its value; a body that is not JSON leaves
    no record. *)
Lemma log_discipline_witness :
  records (sample_receive (Samples.arriving (Some "s3cret") Samples.ticket)
             Samples.start).2
  = [{| levelname := INFO;
        message := "Ticket classified: TicketCategory.ORDER_ISSUE" |}]
  ∧ records (receive (runtime := Samples.earlier) Samples.settings
               Samples.answering Samples.reask_messages Samples.describe
               (Samples.arriving (Some "s3cret") Samples.ticket) Samples.start).2
    = [{| levelname := INFO; message := "Ticket classified: order_issue" |}]
  ∧ records (sample_receive (Samples.arriving (Some "s3cret") (Malformed 0))
               Samples.start).2 = [].
Proof.
  split_and!.
  - assert (Hok : status_code
                    (sample_receive (Samples.arriving (Some "s3cret") Samples.ticket)
                       Samples.start).1 = 200%Z) by (vm_compute; reflexivity).
    destruct (proj1 (log_discipline Samples.settings Samples.answering
                       Samples.reask_messages Samples.describe
                       (Samples.arriving (Some "s3cret") Samples.ticket)
                       Samples.start)
                Hok) as (c & obj & Hresp & Hcat & Hrec).
    rewrite Hrec. vm_compute in Hresp. injection Hresp as <-.
    vm_compute in Hcat. injection Hcat as Hcat.
    destruct c; try discriminate Hcat. reflexivity.
  - assert (Hok : status_code
                    (receive (runtime := Samples.earlier) Samples.settings
                       Samples.answering Samples.reask_messages Samples.describe
                       (Samples.arriving (Some "s3cret") Samples.ticket)
                       Samples.start).1 = 200%Z) by (vm_compute; reflexivity).
    destruct (proj1 (log_discipline (runtime := Samples.earlier)
                       Samples.settings Samples.answering
                       Samples.reask_messages Samples.describe
                       (Samples.arriving (Some "s3cret") Samples.ticket)
                       Samples.start)
                Hok) as (c & obj & Hresp & Hcat & Hrec).
    rewrite Hrec. vm_compute in Hresp. injection Hresp as <-.
    vm_compute in Hcat. injection Hcat as Hcat.
    destruct c; try discriminate Hcat. reflexivity.
  - apply (log_discipline Samples.settings Samples.answering
             Samples.reask_messages Samples.describe
             (Samples.arriving (Some "s3cret") (Malformed 0)) Samples.start);
      discriminate.
Defined.

(** Where the configured key is empty, an empty header does not match
    it: the header yields [None]. *)
Lemma rejection_statuses_witness :
  status_code (receive Samples.unset Samples.answering Samples.reask_messages
                 Samples.describe (Samples.arriving (Some "") Samples.ticket)
                 Samples.start).1 = 403%Z.
Proof.
  apply (rejection_statuses Samples.unset Samples.answering
           Samples.reask_messages Samples.describe
           (Samples.arriving (Some "") Samples.ticket) Samples.start).
  split; [by eexists|discriminate].
Defined.

Lemma model_client_usage_witness :
  calls (sample_receive (Samples.arriving (Some "s3cret") Samples.ticket)
           Samples.start).2
  = [classification_call Samples.ticket_text]
  ∧ calls (sample_receive (Samples.arriving (Some "s3cret") Unreadable)
             Samples.start).2 = [].
Proof.
  split.
  - assert (Hok : status_code
                    (sample_receive (Samples.arriving (Some "s3cret") Samples.ticket)
                       Samples.start).1 = 200%Z) by (vm_compute; reflexivity).
    destruct (proj1 (model_client_usage Samples.settings Samples.answering
                       Samples.reask_messages Samples.describe
                       (Samples.arriving (Some "s3cret") Samples.ticket)
                       Samples.start)
                (or_introl Hok)) as (ms & text & cs & Hbody & Hm & Hcalls & _).
    injection Hbody as <-. injection Hm as <-. exact Hcalls.
  - apply (model_client_usage Samples.settings Samples.answering
             Samples.reask_messages Samples.describe
             (Samples.arriving (Some "s3cret") Unreadable) Samples.start);
      discriminate.
Defined.

Lemma other_addresses_untouched_witness :
  storage (limiter_storage
             (sample_post (Samples.ticket_from Samples.other_host 100)
                Probes.exhausted).2) !! Samples.host
  = Some 14%nat.
Proof.
  refine (eq_trans (proj1 (other_addresses_untouched Samples.settings
            Samples.answering Samples.reask_messages Samples.describe
            (Samples.ticket_from Samples.other_host 100) Probes.exhausted
            Samples.host _)) _).
  - discriminate.
  - reflexivity.
Defined.

Lemma window_reopens_witness :
  status_code (sample_post (Samples.ticket_from Samples.host 160) Probes.exhausted).1
  ≠ 429%Z
  ∧ counter (limiter_storage
               (sample_post (Samples.ticket_from Samples.host 160) Probes.exhausted).2)
      Samples.host = 1%nat
  ∧ window_end (limiter_storage
                  (sample_post (Samples.ticket_from Samples.host 160)
                     Probes.exhausted).2)
      Samples.host = 220%Z.
Proof.
  apply (window_reopens Samples.settings Samples.answering Samples.reask_messages
           Samples.describe (Samples.ticket_from Samples.host 160) Probes.exhausted).
  - apply ticket_admissible.
  - vm_compute. discriminate.
Defined.

Lemma storage_stays_well_formed_witness :
  storage_ok (limiter_storage (sample_serve Samples.interleaved Samples.start).2).
Proof.
  apply (storage_stays_well_formed Samples.settings Samples.answering
           Samples.reask_messages Samples.describe Samples.interleaved Samples.start).
  apply start_ok.
Defined.

Lemma live_window_counts_witness :
  counter (limiter_storage
             (sample_post (Samples.ticket_from Samples.host 159) Probes.exhausted).2)
    Samples.host = 15%nat
  ∧ window_end (limiter_storage
                  (sample_post (Samples.ticket_from Samples.host 159)
                     Probes.exhausted).2)
      Samples.host = 160%Z.
Proof.
  destruct (live_window_counts Samples.settings Samples.answering
              Samples.reask_messages Samples.describe
              (Samples.ticket_from Samples.host 159) Probes.exhausted 160%Z)
    as (Hcount & Hend & _).
  - apply exhausted_ok.
  - apply ticket_admissible.
  - reflexivity.
  - reflexivity.
  - split; [exact Hcount|exact Hend].
Defined.

(** On the recent runtime three requests follow the first when the model
    never conforms, and none when the completion API raises. *)
Lemma persistent_failure_spends_budget_witness :
  (∃ e cs,
     classify_ticket Samples.rambling Samples.reask_messages Samples.describe
       Samples.ticket_text Samples.start
     = (inl (HTTPException 500 "Error classifying ticket"),
        logged ERROR ("Error classifying ticket: " ++ exc_str e)
          (sending (first_completion (classification_call Samples.ticket_text) :: cs)
             (calling (classification_call Samples.ticket_text) Samples.start)))
     ∧ length cs = 3%nat)
  ∧ length (sent (classify_ticket (Samples.failing "Connection timed out")
                    Samples.reask_messages Samples.describe
                    Samples.ticket_text Samples.start).2) = 1%nat.
Proof.
  split; [|reflexivity].
  destruct (persistent_failure_spends_budget Samples.rambling
              Samples.reask_messages Samples.describe Samples.ticket_text
              Samples.start) as (e & cs & Hrun & _ & Hall).
  - intros history. eexists. reflexivity.
  - exists e, cs. split; [exact Hrun|]. apply Hall. intros history. by eexists.
Defined.

Lemma first_conforming_reply_returned_witness :
  (classify_ticket Probes.elaborating Samples.reask_messages Samples.describe
     Samples.ticket_text Samples.start).1
  = inr [("category", JStr "order_issue");
         ("urgency", JStr "high");
         ("sentiment", JStr "frustrated");
         ("confidence", JNum (Finite (9 # 10)));
         ("key_information", JArr [JStr "order #12345"]);
         ("suggested_action", JStr "Trace the shipment and offer a refund")].
Proof.
  rewrite (proj1 (first_conforming_reply_returned Probes.elaborating
             Samples.reask_messages Samples.describe Samples.ticket_text
             Samples.start _ eq_refl ltac:(repeat constructor))).
  reflexivity.
Defined.

Lemma unhandled_exception_answer_witness :
  respond (app_exception_handlers Samples.describe)
    (Samples.ticket_from Samples.host 100)
    (Error {| exc_class := "AttributeError"; exc_str := "category" |}) Samples.start
  = (unexpected_error,
     logged ERROR "Unhandled exception: category" Samples.start).
Proof.
  apply (unhandled_exception_answer Samples.describe).
  left. by eexists.
Defined.

Lemma http_exception_handler_bypassed_witness :
  (respond (app_exception_handlers Samples.describe)
     (Samples.ticket_from Samples.host 100)
     (HTTPException 403 "Could not validate API key") Samples.start).1
  ≠ (http_exception_handler (Samples.ticket_from Samples.host 100)
       (HTTPException 403 "Could not validate API key") Samples.start).1.
Proof.
  apply (http_exception_handler_bypassed Samples.describe). reflexivity.
Defined.

End MoreCases.
